(** * go-junit-report: package gtr (pkg/gtr/gtr.go)

    A shallow embedding of the report data model, of [Report.IsSuccessful],
    of the JUnit renderer [JUnit] and of its helpers [formatOutput],
    [trimOutputPrefix] and [mergeBenchmarks], followed by the properties
    that the specification states about them.

    Conventions.
    - Go [string] is a sequence of bytes: Rocq [string].
    - Go [int], [int64] and [time.Duration] are 64-bit signed integers:
      [Z], with the wrap-around of [+] written out ([add64]).
    - Go [float64] is IEEE 754 binary64: Rocq's primitive [float].
    - Go slices that are only appended to and ranged over are lists.
    - Go [map[string]T] is [gmap string T]. *)

From Stdlib Require Import ZArith Floats Ascii String List Lia.
From stdpp Require Import base option list gmap strings pretty.

Local Open Scope Z_scope.

(** ** Machine integers *)

Definition min_int64 : Z := - 2 ^ 63.
Definition max_int64 : Z := 2 ^ 63 - 1.

Definition in_int64 (z : Z) : bool := (min_int64 <=? z) && (z <=? max_int64).

(** Two's complement wrap-around of a 64-bit signed integer. *)
Definition wrap64 (z : Z) : Z := (z + 2 ^ 63) mod 2 ^ 64 - 2 ^ 63.

(** Go's [a + b] on [int64] / [time.Duration]. *)
Definition add64 (a b : Z) : Z := wrap64 (a + b).

(** Go's [a / b] on [int64]: the quotient truncated toward zero. The only
    division of the package divides by the length of a slice that has at
    least one element (see [same_name_present]), so neither the panic of a
    division by zero nor the overflow of [min_int64 / -1] can occur. *)
Definition div64 (a b : Z) : Z := Z.quot a b.

(** ** Floating point *)

(** Go's [float64(n)] for a slice length [n] (below [2 ^ 63]). *)
Definition float64_of_len (n : nat) : float :=
  PrimFloat.of_uint63 (Uint63.of_Z (Z.of_nat n)).

(** The integer part of a finite float, truncated toward zero; [None] for
    NaN and the infinities. *)
Definition float64_trunc (f : float) : option Z :=
  match Prim2SF f with
  | S754_zero _ => Some 0
  | S754_finite s m e =>
      let mag := if 0 <=? e then Z.pos m * 2 ^ e else Z.quot (Z.pos m) (2 ^ (- e)) in
      Some (if s then - mag else mag)
  | S754_infinity _ => None
  | S754_nan => None
  end.

(** ** Package strings of the Go standard library, on bytes

    [IndexFunc] and [FieldsFunc] decode UTF-8 and apply their predicate to
    runes. The two predicates of this package compare a rune with the ASCII
    characters space and colon; a byte of a multi-byte or of an invalid
    sequence is never one of those, so testing bytes finds the same
    positions. *)

Definition byte_eqb (a b : ascii) : bool := Ascii.eqb a b.

(** [strings.IndexFunc]: index of the first character satisfying [f], or
    [-1] when there is none. *)
Fixpoint IndexFunc_from (i : Z) (s : string) (f : ascii -> bool) : Z :=
  match s with
  | EmptyString => -1
  | String c s' => if f c then i else IndexFunc_from (i + 1) s' f
  end.

Definition IndexFunc (s : string) (f : ascii -> bool) : Z := IndexFunc_from 0 s f.

(** [s[len(prefix):]] when [s] starts with [prefix]. *)
Fixpoint CutPrefix (s prefix : string) {struct prefix} : option string :=
  match prefix with
  | EmptyString => Some s
  | String p prefix' =>
      match s with
      | EmptyString => None
      | String c s' => if byte_eqb c p then CutPrefix s' prefix' else None
      end
  end.

(** [strings.TrimPrefix]: [s] without the leading [prefix]; [s] itself when
    it does not start with [prefix]. *)
Definition TrimPrefix (s prefix : string) : string :=
  match CutPrefix s prefix with
  | Some rest => rest
  | None => s
  end.

(** [strings.Join]. *)
Fixpoint Join (elems : list string) (sep : string) : string :=
  match elems with
  | [] => ""
  | [e] => e
  | e :: rest => e +:+ sep +:+ Join rest sep
  end.

(** [strings.FieldsFunc]: the maximal non-empty runs of characters that do
    not satisfy [f], in order. [field] is the run being read. *)
Fixpoint FieldsFunc_from (field : string) (s : string) (f : ascii -> bool) : list string :=
  match s with
  | EmptyString => if String.eqb field "" then [] else [field]
  | String c s' =>
      if f c then
        if String.eqb field "" then FieldsFunc_from "" s' f
        else field :: FieldsFunc_from "" s' f
      else FieldsFunc_from (field +:+ String c "") s' f
  end.

Definition FieldsFunc (s : string) (f : ascii -> bool) : list string :=
  FieldsFunc_from "" s f.

(** ** The report data model *)

(** Modelled from the spec: the declaration of the type [Result] is not in
    gtr.go. The specification gives the enumeration Pass, Fail, Skip,
    Unknown, where Unknown is the state of a test for which no result was
    found; it is the value of a [Result] that was never assigned. *)
Inductive Result : Set := Unknown | Pass | Fail | Skip.

Definition Result_zero : Result := Unknown.

Definition Result_eqb (a b : Result) : bool :=
  match a, b with
  | Unknown, Unknown | Pass, Pass | Fail, Fail | Skip, Skip => true
  | _, _ => false
  end.

Record Test : Type := mkTest {
  Test_Name : string;
  Test_Duration : Z;
  Test_Result : Result;
  Test_Level : Z;
  Test_Output : list string
}.

Record Benchmark : Type := mkBenchmark {
  Benchmark_Name : string;
  Benchmark_Result : Result;
  Benchmark_Output : list string;
  Benchmark_Iterations : Z;
  Benchmark_NsPerOp : float;
  Benchmark_MBPerSec : float;
  Benchmark_BytesPerOp : Z;
  Benchmark_AllocsPerOp : Z
}.

Record Error : Type := mkError {
  Error_Name : string;
  Error_Duration : Z;
  Error_Cause : string;
  Error_Output : list string
}.

Record Package : Type := mkPackage {
  Package_Name : string;
  Package_Duration : Z;
  Package_Coverage : float;
  Package_Output : list string;
  Package_Tests : list Test;
  Package_Benchmarks : list Benchmark;
  Package_BuildError : Error;
  Package_RunError : Error
}.

Record Report : Type := mkReport {
  Report_Packages : list Package
}.

(** [s != ""]. *)
Definition nonempty (s : string) : bool := negb (String.eqb s "").

(** ** Report.IsSuccessful *)

(** The inner loop over [pkg.Tests]: [false] stands for the [return false]
    taken at the first test whose result is neither Pass nor Skip. *)
Fixpoint IsSuccessful_tests (tests : list Test) : bool :=
  match tests with
  | [] => true
  | t :: tests' =>
      if negb (Result_eqb (Test_Result t) Pass) && negb (Result_eqb (Test_Result t) Skip)
      then false
      else IsSuccessful_tests tests'
  end.

(** The outer loop over [r.Packages]. *)
Fixpoint IsSuccessful_packages (pkgs : list Package) : bool :=
  match pkgs with
  | [] => true
  | pkg :: pkgs' =>
      if nonempty (Error_Name (Package_BuildError pkg)) || nonempty (Error_Name (Package_RunError pkg))
      then false
      else if IsSuccessful_tests (Package_Tests pkg)
      then IsSuccessful_packages pkgs'
      else false
  end.

Definition IsSuccessful (r : Report) : bool :=
  IsSuccessful_packages (Report_Packages r).

(** ** Output formatting *)

Definition tab : string := String (ascii_of_nat 9) "".
Definition newline : string := String (ascii_of_nat 10) "".
Definition indent4 : string := "    ".

(** The predicate [func(r rune) bool { return r != ' ' }]. *)
Definition not_space (r : ascii) : bool := negb (byte_eqb r " "%char).

(** The loop [for i := 0; i <= level; i++ { line = TrimPrefix(line, "    ") }]
    of [trimOutputPrefix], step by step, with the wrap-around of [i++]:
    [Some line] is its result, [None] means that [fuel] iterations did not
    reach the end. *)
Fixpoint trim_loop (fuel : nat) (level i : Z) (line : string) : option string :=
  match fuel with
  | O => None
  | S fuel' =>
      if i <=? level
      then trim_loop fuel' level (add64 i 1) (TrimPrefix line indent4)
      else Some line
  end.

(** [trimOutputPrefix]. Go's [%] is the remainder of the truncated
    division, [Z.rem]. The loop runs its body [level + 1] times when
    [0 <= level] and not at all when [level < 0], which [Nat.iter] states
    in closed form ([trim_loop_returns]); this holds for every level below
    [max_int64], the one level at which the condition [i <= level] never
    fails ([trim_loop_max_int64]). *)
Definition trimOutputPrefix (line : string) (level : Z) : string :=
  let prefixLen := IndexFunc line not_space in
  let line :=
    if Z.rem prefixLen 4 =? 0
    then Nat.iter (Z.to_nat (level + 1)) (fun line => TrimPrefix line indent4) line
    else line in
  TrimPrefix line tab.

Definition formatOutput (output : list string) (level : Z) : string :=
  Join (map (fun line => trimOutputPrefix line level) output) newline.

(** ** Benchmark aggregation *)

(** The composite literal [Benchmark{Name: name}]: all other fields hold
    the zero value of their type. *)
Definition Benchmark_named (name : string) : Benchmark :=
  {| Benchmark_Name := name;
     Benchmark_Result := Result_zero;
     Benchmark_Output := [];
     Benchmark_Iterations := 0;
     Benchmark_NsPerOp := 0%float;
     Benchmark_MBPerSec := 0%float;
     Benchmark_BytesPerOp := 0;
     Benchmark_AllocsPerOp := 0 |}.

(** [benchmap[name]]: a missing key reads as the nil slice. *)
Definition benchmap_get (benchmap : gmap string (list Benchmark)) (name : string)
  : list Benchmark :=
  default [] (benchmap !! name).

(** One iteration of the first loop of [mergeBenchmarks], on the pair of
    [merged] and [benchmap]. *)
Definition merge_collect (st : list Benchmark * gmap string (list Benchmark))
  (bm : Benchmark) : list Benchmark * gmap string (list Benchmark) :=
  let '(merged, benchmap) := st in
  let merged :=
    match benchmap !! Benchmark_Name bm with
    | None => merged ++ [Benchmark_named (Benchmark_Name bm)]
    | Some _ => merged
    end in
  (merged, <[Benchmark_Name bm := benchmap_get benchmap (Benchmark_Name bm) ++ [bm]]> benchmap).

(** One iteration of the inner loop: the four sums, accumulated in the
    loop variable [bm]. *)
Definition merge_add (bm b : Benchmark) : Benchmark :=
  {| Benchmark_Name := Benchmark_Name bm;
     Benchmark_Result := Benchmark_Result bm;
     Benchmark_Output := Benchmark_Output bm;
     Benchmark_Iterations := Benchmark_Iterations bm;
     Benchmark_NsPerOp := (Benchmark_NsPerOp bm + Benchmark_NsPerOp b)%float;
     Benchmark_MBPerSec := (Benchmark_MBPerSec bm + Benchmark_MBPerSec b)%float;
     Benchmark_BytesPerOp := add64 (Benchmark_BytesPerOp bm) (Benchmark_BytesPerOp b);
     Benchmark_AllocsPerOp := add64 (Benchmark_AllocsPerOp bm) (Benchmark_AllocsPerOp b) |}.

(** One iteration of the second loop: [bm] is the copy of [merged[i]] made
    by [range]; the four assignments to [merged[i]] leave its other fields
    as they are. *)
Definition merge_average (benchmap : gmap string (list Benchmark)) (bm : Benchmark)
  : Benchmark :=
  let group := benchmap_get benchmap (Benchmark_Name bm) in
  let sum := fold_left merge_add group bm in
  let n := length group in
  {| Benchmark_Name := Benchmark_Name bm;
     Benchmark_Result := Benchmark_Result bm;
     Benchmark_Output := Benchmark_Output bm;
     Benchmark_Iterations := Benchmark_Iterations bm;
     Benchmark_NsPerOp := (Benchmark_NsPerOp sum / float64_of_len n)%float;
     Benchmark_MBPerSec := (Benchmark_MBPerSec sum / float64_of_len n)%float;
     Benchmark_BytesPerOp := div64 (Benchmark_BytesPerOp sum) (Z.of_nat n);
     Benchmark_AllocsPerOp := div64 (Benchmark_AllocsPerOp sum) (Z.of_nat n) |}.

Definition mergeBenchmarks (benchmarks : list Benchmark) : list Benchmark :=
  let '(merged, benchmap) := fold_left merge_collect benchmarks ([], ∅) in
  map (merge_average benchmap) merged.

(** ** The JUnit document model *)

Module junit.

(** Modelled from the spec: package junit is not part of gtr.go. Its
    types follow the document schema of the specification: a test-suite
    has a name, a timestamp, a hostname, properties, captured output,
    test-cases and a total time; a test-case has a class name, a name, a
    time and optional failure, error and skipped records, each a message
    with data. [AddProperty], [AddTestcase] and [AddSuite] append to the
    sequence they name. *)
Record Result : Type := mkResult {
  Result_Message : string;
  Result_Data : string
}.

Record Testcase : Type := mkTestcase {
  Testcase_Classname : string;
  Testcase_Name : string;
  Testcase_Time : string;
  Testcase_Skipped : option Result;
  Testcase_Error : option Result;
  Testcase_Failure : option Result
}.

Record Property : Type := mkProperty {
  Property_Name : string;
  Property_Value : string
}.

Record Output : Type := mkOutput {
  Output_Data : string
}.

Record Testsuite : Type := mkTestsuite {
  Testsuite_Name : string;
  Testsuite_Timestamp : string;
  Testsuite_Hostname : string;
  Testsuite_Properties : list Property;
  Testsuite_SystemOut : option Output;
  Testsuite_Testcases : list Testcase;
  Testsuite_Time : string
}.

Definition Testsuites : Type := list Testsuite.

Definition AddProperty (t : Testsuite) (name value : string) : Testsuite :=
  {| Testsuite_Name := Testsuite_Name t;
     Testsuite_Timestamp := Testsuite_Timestamp t;
     Testsuite_Hostname := Testsuite_Hostname t;
     Testsuite_Properties :=
       Testsuite_Properties t ++ [{| Property_Name := name; Property_Value := value |}];
     Testsuite_SystemOut := Testsuite_SystemOut t;
     Testsuite_Testcases := Testsuite_Testcases t;
     Testsuite_Time := Testsuite_Time t |}.

Definition AddTestcase (t : Testsuite) (tc : Testcase) : Testsuite :=
  {| Testsuite_Name := Testsuite_Name t;
     Testsuite_Timestamp := Testsuite_Timestamp t;
     Testsuite_Hostname := Testsuite_Hostname t;
     Testsuite_Properties := Testsuite_Properties t;
     Testsuite_SystemOut := Testsuite_SystemOut t;
     Testsuite_Testcases := Testsuite_Testcases t ++ [tc];
     Testsuite_Time := Testsuite_Time t |}.

Definition AddSuite (ts : Testsuites) (suite : Testsuite) : Testsuites :=
  ts ++ [suite].

(** The assignments [suite.SystemOut = ...] and [suite.Time = ...]. *)
Definition set_SystemOut (t : Testsuite) (out : option Output) : Testsuite :=
  {| Testsuite_Name := Testsuite_Name t;
     Testsuite_Timestamp := Testsuite_Timestamp t;
     Testsuite_Hostname := Testsuite_Hostname t;
     Testsuite_Properties := Testsuite_Properties t;
     Testsuite_SystemOut := out;
     Testsuite_Testcases := Testsuite_Testcases t;
     Testsuite_Time := Testsuite_Time t |}.

Definition set_Time (t : Testsuite) (time : string) : Testsuite :=
  {| Testsuite_Name := Testsuite_Name t;
     Testsuite_Timestamp := Testsuite_Timestamp t;
     Testsuite_Hostname := Testsuite_Hostname t;
     Testsuite_Properties := Testsuite_Properties t;
     Testsuite_SystemOut := Testsuite_SystemOut t;
     Testsuite_Testcases := Testsuite_Testcases t;
     Testsuite_Time := time |}.

End junit.

(** ** Property extraction *)

Definition propPrefixes : gmap string bool :=
  <["goos" := true]> (<["goarch" := true]> (<["pkg" := true]> ∅)).

(** [propPrefixes[key]]: a missing key reads as [false]. *)
Definition propPrefixes_get (key : string) : bool :=
  default false (propPrefixes !! key).

Definition propFieldsFunc (r : ascii) : bool :=
  byte_eqb r ":"%char || byte_eqb r " "%char.

(** ** The renderer *)

Section Renderer.

(** Functions of other packages that the renderer calls:
    [junit.FormatDuration], [junit.FormatBenchmarkTime],
    [fmt.Sprintf("%.2f", x)] and [now.Format(time.RFC3339)]. *)
Variable FormatDuration : Z -> string.
Variable FormatBenchmarkTime : Z -> string.
Variable Sprintf_2f : float -> string.
Variable time_Time : Type.
Variable Format_RFC3339 : time_Time -> string.

(** The conversion [time.Duration(x)] of a [float64] discards the
    fraction; its result for a value that [int64] cannot represent is
    left to the implementation by the Go specification. *)
Variable float64_unrepresentable : float -> Z.

Definition Duration_of_float64 (x : float) : Z :=
  match float64_trunc x with
  | Some z => if in_int64 z then z else float64_unrepresentable x
  | None => float64_unrepresentable x
  end.

(** The body of the loop over [pkg.Tests], without the two statements on
    [duration] and [suite]: the test-case [tc]. *)
Definition JUnit_test (pkg : Package) (test : Test) : junit.Testcase :=
  let Classname := Package_Name pkg in
  let Name := Test_Name test in
  let Time := FormatDuration (Test_Duration test) in
  if Result_eqb (Test_Result test) Fail then
    {| junit.Testcase_Classname := Classname;
       junit.Testcase_Name := Name;
       junit.Testcase_Time := Time;
       junit.Testcase_Skipped := None;
       junit.Testcase_Error := None;
       junit.Testcase_Failure :=
         Some {| junit.Result_Message := "Failed";
                 junit.Result_Data := formatOutput (Test_Output test) (Test_Level test) |} |}
  else if Result_eqb (Test_Result test) Skip then
    {| junit.Testcase_Classname := Classname;
       junit.Testcase_Name := Name;
       junit.Testcase_Time := Time;
       junit.Testcase_Skipped :=
         Some {| junit.Result_Message := formatOutput (Test_Output test) (Test_Level test);
                 junit.Result_Data := "" |};
       junit.Testcase_Error := None;
       junit.Testcase_Failure := None |}
  else if Result_eqb (Test_Result test) Unknown then
    {| junit.Testcase_Classname := Classname;
       junit.Testcase_Name := Name;
       junit.Testcase_Time := Time;
       junit.Testcase_Skipped := None;
       junit.Testcase_Error :=
         Some {| junit.Result_Message := "No test result found";
                 junit.Result_Data := formatOutput (Test_Output test) (Test_Level test) |};
       junit.Testcase_Failure := None |}
  else
    {| junit.Testcase_Classname := Classname;
       junit.Testcase_Name := Name;
       junit.Testcase_Time := Time;
       junit.Testcase_Skipped := None;
       junit.Testcase_Error := None;
       junit.Testcase_Failure := None |}.

(** The test-case of the loop over [mergeBenchmarks(pkg.Benchmarks)]. *)
Definition JUnit_benchmark (pkg : Package) (bm : Benchmark) : junit.Testcase :=
  {| junit.Testcase_Classname := Package_Name pkg;
     junit.Testcase_Name := Benchmark_Name bm;
     junit.Testcase_Time := FormatBenchmarkTime (Duration_of_float64 (Benchmark_NsPerOp bm));
     junit.Testcase_Skipped := None;
     junit.Testcase_Error := None;
     junit.Testcase_Failure :=
       if Result_eqb (Benchmark_Result bm) Fail
       then Some {| junit.Result_Message := "Failed"; junit.Result_Data := "" |}
       else None |}.

(** The synthetic test-cases of a build error and of a run error. *)
Definition JUnit_build_error (pkg : Package) : junit.Testcase :=
  {| junit.Testcase_Classname := Error_Name (Package_BuildError pkg);
     junit.Testcase_Name := Error_Cause (Package_BuildError pkg);
     junit.Testcase_Time := FormatDuration 0;
     junit.Testcase_Skipped := None;
     junit.Testcase_Error :=
       Some {| junit.Result_Message := "Build error";
               junit.Result_Data := Join (Error_Output (Package_BuildError pkg)) newline |};
     junit.Testcase_Failure := None |}.

Definition JUnit_run_error (pkg : Package) : junit.Testcase :=
  {| junit.Testcase_Classname := Error_Name (Package_RunError pkg);
     junit.Testcase_Name := "Failure";
     junit.Testcase_Time := FormatDuration 0;
     junit.Testcase_Skipped := None;
     junit.Testcase_Error :=
       Some {| junit.Result_Message := "Run error";
               junit.Result_Data := Join (Error_Output (Package_RunError pkg)) newline |};
     junit.Testcase_Failure := None |}.

(** One iteration of the loop over [pkg.Output] that extracts properties. *)
Definition JUnit_property (suite : junit.Testsuite) (line : string) : junit.Testsuite :=
  match FieldsFunc line propFieldsFunc with
  | [key; value] =>
      if propPrefixes_get key then junit.AddProperty suite key value else suite
  | _ => suite
  end.

(** The body of the loop over [report.Packages], up to [suites.AddSuite]:
    the suite of one package. The local variables [duration] and [suite]
    are threaded through the statements in the order of the source. *)
Definition JUnit_package (hostname timestamp : string) (pkg : Package) : junit.Testsuite :=
  let duration := 0 in
  let suite :=
    {| junit.Testsuite_Name := Package_Name pkg;
       junit.Testsuite_Timestamp := timestamp;
       junit.Testsuite_Hostname := hostname;
       junit.Testsuite_Properties := [];
       junit.Testsuite_SystemOut := None;
       junit.Testsuite_Testcases := [];
       junit.Testsuite_Time := "" |} in
  let suite :=
    if (0 <? length (Package_Output pkg))%nat
    then junit.set_SystemOut suite
           (Some {| junit.Output_Data := formatOutput (Package_Output pkg) 0 |})
    else suite in
  let suite :=
    if (0 <? Package_Coverage pkg)%float
    then junit.AddProperty suite "coverage.statements.pct" (Sprintf_2f (Package_Coverage pkg))
    else suite in
  let suite := fold_left JUnit_property (Package_Output pkg) suite in
  let '(duration, suite) :=
    fold_left
      (fun '(duration, suite) test =>
         (add64 duration (Test_Duration test),
          junit.AddTestcase suite (JUnit_test pkg test)))
      (Package_Tests pkg) (duration, suite) in
  let suite :=
    fold_left
      (fun suite bm => junit.AddTestcase suite (JUnit_benchmark pkg bm))
      (mergeBenchmarks (Package_Benchmarks pkg)) suite in
  let suite :=
    if nonempty (Error_Name (Package_BuildError pkg))
    then junit.AddTestcase suite (JUnit_build_error pkg)
    else suite in
  let suite :=
    if nonempty (Error_Name (Package_RunError pkg))
    then junit.AddTestcase suite (JUnit_run_error pkg)
    else suite in
  if Package_Duration pkg =? 0
  then junit.set_Time suite (FormatDuration duration)
  else junit.set_Time suite (FormatDuration (Package_Duration pkg)).

Definition JUnit (report : Report) (hostname : string) (now : time_Time)
  : junit.Testsuites :=
  let timestamp := Format_RFC3339 now in
  fold_left
    (fun suites pkg => junit.AddSuite suites (JUnit_package hostname timestamp pkg))
    (Report_Packages report) [].

End Renderer.

(** ** Vocabulary of the statements *)

(** The string of [n] space characters. *)
Fixpoint spaces (n : nat) : string :=
  match n with
  | O => ""
  | S n' => String " "%char (spaces n')
  end.

(** The length of the leading run of space characters of a line. *)
Fixpoint leading_spaces (line : string) : nat :=
  match line with
  | String c line' => if byte_eqb c " "%char then S (leading_spaces line') else O
  | EmptyString => O
  end.

(** A string that begins with a character other than the space. *)
Definition starts_non_space (s : string) : Prop :=
  exists c s', s = String c s' /\ c <> " "%char.

(** The reading of output normalization that strips [level + 1] groups of
    four spaces whenever the leading run is a multiple of four: [out] is
    what remains of [line] behind [4 * (level + 1)] spaces, less a leading
    tab. *)
Definition strips_level_groups (line : string) (level : Z) (out : string) : Prop :=
  (leading_spaces line mod 4 = 0)%nat ->
  exists rest, line = spaces (4 * Z.to_nat (level + 1)) +:+ rest /\ out = TrimPrefix rest tab.

(** A test that makes [IsSuccessful] return [false]. *)
Definition failing_test (t : Test) : Prop :=
  Test_Result t <> Pass /\ Test_Result t <> Skip.

(** A package that makes [IsSuccessful] return [false]. *)
Definition failing_package (pkg : Package) : Prop :=
  Error_Name (Package_BuildError pkg) <> ""%string
  \/ Error_Name (Package_RunError pkg) <> ""%string
  \/ exists t, In t (Package_Tests pkg) /\ failing_test t.

(** The distinct names of a list, each at the place of its first
    occurrence. *)
Definition first_seen (names : list string) : list string :=
  fold_left
    (fun seen name => if bool_decide (name ∈ seen) then seen else seen ++ [name])
    names [].

(** The records of a list of benchmarks that carry a given name, in the
    order of the list. *)
Definition same_name (name : string) (benchmarks : list Benchmark) : list Benchmark :=
  List.filter (fun b => String.eqb (Benchmark_Name b) name) benchmarks.

(** Sums as the loops of the source form them: from the zero value, one
    addition per element, in order; [float64] additions round, [int64]
    additions wrap around. *)
Definition sum_float64 (xs : list float) : float := fold_left PrimFloat.add xs 0%float.
Definition sum_int64 (xs : list Z) : Z := fold_left add64 xs 0.

(** The sum of a list of integers, without wrap-around. *)
Definition Zsum (xs : list Z) : Z := fold_right Z.add 0 xs.

(** [m] is the arithmetic mean of the integers [xs]. *)
Definition is_mean (m : Z) (xs : list Z) : Prop :=
  m * Z.of_nat (length xs) = Zsum xs.

(** The record that aggregates the group of benchmarks of one name. *)
Definition aggregate (name : string) (group : list Benchmark) : Benchmark :=
  {| Benchmark_Name := name;
     Benchmark_Result := Result_zero;
     Benchmark_Output := [];
     Benchmark_Iterations := 0;
     Benchmark_NsPerOp :=
       (sum_float64 (map Benchmark_NsPerOp group) / float64_of_len (length group))%float;
     Benchmark_MBPerSec :=
       (sum_float64 (map Benchmark_MBPerSec group) / float64_of_len (length group))%float;
     Benchmark_BytesPerOp :=
       Z.quot (sum_int64 (map Benchmark_BytesPerOp group)) (Z.of_nat (length group));
     Benchmark_AllocsPerOp :=
       Z.quot (sum_int64 (map Benchmark_AllocsPerOp group)) (Z.of_nat (length group)) |}.

(** The benchmark [bm] with [iterations] for its iteration count. *)
Definition with_Iterations (bm : Benchmark) (iterations : Z) : Benchmark :=
  {| Benchmark_Name := Benchmark_Name bm;
     Benchmark_Result := Benchmark_Result bm;
     Benchmark_Output := Benchmark_Output bm;
     Benchmark_Iterations := iterations;
     Benchmark_NsPerOp := Benchmark_NsPerOp bm;
     Benchmark_MBPerSec := Benchmark_MBPerSec bm;
     Benchmark_BytesPerOp := Benchmark_BytesPerOp bm;
     Benchmark_AllocsPerOp := Benchmark_AllocsPerOp bm |}.

(** The name of a benchmark record with its four metrics: ns/op, MB/s,
    bytes/op and allocs/op. *)
Definition Benchmark_metrics (bm : Benchmark) : string * float * float * Z * Z :=
  (Benchmark_Name bm, Benchmark_NsPerOp bm, Benchmark_MBPerSec bm,
   Benchmark_BytesPerOp bm, Benchmark_AllocsPerOp bm).

(** The package [pkg] with [benchmarks] for its benchmarks. *)
Definition with_Benchmarks (pkg : Package) (benchmarks : list Benchmark) : Package :=
  {| Package_Name := Package_Name pkg;
     Package_Duration := Package_Duration pkg;
     Package_Coverage := Package_Coverage pkg;
     Package_Output := Package_Output pkg;
     Package_Tests := Package_Tests pkg;
     Package_Benchmarks := benchmarks;
     Package_BuildError := Package_BuildError pkg;
     Package_RunError := Package_RunError pkg |}.

(** A string without colon and without space. *)
Fixpoint no_separator (s : string) : bool :=
  match s with
  | EmptyString => true
  | String c s' => negb (propFieldsFunc c) && no_separator s'
  end.

(** The property that an output line yields, if any: the line splits at
    colons and spaces into exactly two fields, the first a key of
    [propPrefixes]. *)
Definition line_property (line : string) : option junit.Property :=
  match FieldsFunc line propFieldsFunc with
  | [key; value] =>
      if propPrefixes_get key
      then Some {| junit.Property_Name := key; junit.Property_Value := value |}
      else None
  | _ => None
  end.


(** A package without output, tests, benchmarks and errors, and the error
    value of a package without error. *)
Definition no_Error : Error := mkError "" 0 "" [].

Definition empty_Package (name : string) : Package :=
  mkPackage name 0 0 [] [] [] no_Error no_Error.

(** An example package: four tests, one of each result, and four lines
    of package output. *)
Definition example_Package : Package :=
  {| Package_Name := "example/pkg";
     Package_Duration := 0;
     Package_Coverage := 0;
     Package_Output := ["goos: linux"; "goarch: amd64"; "goos: darwin"; "PASS"];
     Package_Tests :=
       [ mkTest "TestA" 1000000000 Pass 0 [];
         mkTest "TestB" 2000000000 Fail 1
           ["        --- FAIL: TestB/sub"; "    b_test.go:7: boom"];
         mkTest "TestC" 0 Skip 0 ["    c_test.go:3: skipped"];
         mkTest "TestD" 0 Unknown 0 [] ];
     Package_Benchmarks := [];
     Package_BuildError := no_Error;
     Package_RunError := no_Error |}.

(** The example package with an own duration of five seconds. *)
Definition example_Package_5s : Package :=
  {| Package_Name := Package_Name example_Package;
     Package_Duration := 5000000000;
     Package_Coverage := Package_Coverage example_Package;
     Package_Output := Package_Output example_Package;
     Package_Tests := Package_Tests example_Package;
     Package_Benchmarks := Package_Benchmarks example_Package;
     Package_BuildError := Package_BuildError example_Package;
     Package_RunError := Package_RunError example_Package |}.

(** Stand-ins for the formatting functions in the examples: a duration is
    shown as its number of nanoseconds, a coverage is not shown. *)
Definition show_Duration (d : Z) : string := pretty d.
Definition show_Coverage (x : float) : string := "".
Definition unrepresentable_zero (x : float) : Z := 0.

(** ** FromEvents *)

Section Events.

(** Modelled from the spec: the declarations of [Event] and of the report
    builder are not in gtr.go. An event carries the fields that
    [FromEvents] reads: its kind, a name, a result, a duration, the
    indentation depth, the benchmark figures, the coverage percentage with
    the covered packages, and a text. [FromEvents] hands [ev.Result] to
    the builder as it is, so its type is left open. *)
Variable EventResult : Type.

Record Event : Type := mkEvent {
  Event_Type : string;
  Event_Name : string;
  Event_Result : EventResult;
  Event_Duration : Z;
  Event_Data : string;
  Event_Indent : Z;
  Event_CovPct : float;
  Event_CovPackages : list string;
  Event_Iterations : Z;
  Event_NsPerOp : float;
  Event_MBPerSec : float;
  Event_BytesPerOp : Z;
  Event_AllocsPerOp : Z
}.

(** The report builder: [NewReportBuilder] returns a pointer, and each
    method updates the builder behind it; here each method returns the
    updated builder. The methods [Benchmark] and [End] are [AddBenchmark]
    and [End_] here, their names being taken. *)
Variable ReportBuilder : Type.
Variable NewReportBuilder : string -> ReportBuilder.
Variable CreateTest : ReportBuilder -> string -> ReportBuilder.
Variable PauseTest : ReportBuilder -> string -> ReportBuilder.
Variable ContinueTest : ReportBuilder -> string -> ReportBuilder.
Variable EndTest : ReportBuilder -> string -> EventResult -> Z -> Z -> ReportBuilder.
Variable AddBenchmark :
  ReportBuilder -> string -> Z -> float -> float -> Z -> Z -> ReportBuilder.
Variable End_ : ReportBuilder -> ReportBuilder.
Variable CreatePackage :
  ReportBuilder -> string -> EventResult -> Z -> string -> ReportBuilder.
Variable Coverage : ReportBuilder -> float -> list string -> ReportBuilder.
Variable CreateBuildError : ReportBuilder -> string -> ReportBuilder.
Variable AppendOutput : ReportBuilder -> string -> ReportBuilder.
Variable Build : ReportBuilder -> Report.

(** The line that [fmt.Printf("unhandled event type: %v\n", ev.Type)]
    writes to the standard output. *)
Definition unhandled_message (ev : Event) : string :=
  "unhandled event type: " +:+ Event_Type ev +:+ newline.

(** One iteration of the loop of [FromEvents]: the [switch] on [ev.Type],
    on the pair of the builder and of the lines written to the standard
    output so far. *)
Definition FromEvents_event (st : ReportBuilder * list string) (ev : Event)
  : ReportBuilder * list string :=
  let '(report, stdout) := st in
  if String.eqb (Event_Type ev) "run_test" then
    (CreateTest report (Event_Name ev), stdout)
  else if String.eqb (Event_Type ev) "pause_test" then
    (PauseTest report (Event_Name ev), stdout)
  else if String.eqb (Event_Type ev) "cont_test" then
    (ContinueTest report (Event_Name ev), stdout)
  else if String.eqb (Event_Type ev) "end_test" then
    (EndTest report (Event_Name ev) (Event_Result ev) (Event_Duration ev) (Event_Indent ev),
     stdout)
  else if String.eqb (Event_Type ev) "benchmark" then
    (AddBenchmark report (Event_Name ev) (Event_Iterations ev) (Event_NsPerOp ev)
       (Event_MBPerSec ev) (Event_BytesPerOp ev) (Event_AllocsPerOp ev),
     stdout)
  else if String.eqb (Event_Type ev) "status" then
    (End_ report, stdout)
  else if String.eqb (Event_Type ev) "summary" then
    (CreatePackage report (Event_Name ev) (Event_Result ev) (Event_Duration ev)
       (Event_Data ev),
     stdout)
  else if String.eqb (Event_Type ev) "coverage" then
    (Coverage report (Event_CovPct ev) (Event_CovPackages ev), stdout)
  else if String.eqb (Event_Type ev) "build_output" then
    (CreateBuildError report (Event_Name ev), stdout)
  else if String.eqb (Event_Type ev) "output" then
    (AppendOutput report (Event_Data ev), stdout)
  else
    (report, stdout ++ [unhandled_message ev]).

(** [FromEvents]: the report, and the lines written to the standard
    output. *)
Definition FromEvents (events : list Event) (packageName : string)
  : Report * list string :=
  let '(report, stdout) :=
    fold_left FromEvents_event events (NewReportBuilder packageName, []) in
  (Build report, stdout).

(** The events whose kind has a case in the [switch] of [FromEvents]. *)
Definition handled (ev : Event) : bool :=
  bool_decide
    (Event_Type ev ∈
       ["run_test"; "pause_test"; "cont_test"; "end_test"; "benchmark"; "status";
        "summary"; "coverage"; "build_output"; "output"]).

End Events.

(** ** Further vocabulary *)

(** A string of colons and spaces only. *)
Fixpoint all_separator (s : string) : bool :=
  match s with
  | EmptyString => true
  | String c s' => propFieldsFunc c && all_separator s'
  end.

(** A non-empty string without colon and without space. *)
Definition token (s : string) : Prop :=
  s <> ""%string /\ no_separator s = true.

(** What [IsSuccessful] looks at in a package: the names of the two errors
    and the results of the tests; everything else is blanked. *)
Definition outcome_of (pkg : Package) : Package :=
  {| Package_Name := "";
     Package_Duration := 0;
     Package_Coverage := 0;
     Package_Output := [];
     Package_Tests := map (fun t => mkTest "" 0 (Test_Result t) 0 []) (Package_Tests pkg);
     Package_Benchmarks := [];
     Package_BuildError := mkError (Error_Name (Package_BuildError pkg)) 0 "" [];
     Package_RunError := mkError (Error_Name (Package_RunError pkg)) 0 "" [] |}.

(** A test-case without failure record and without error record. *)
Definition clean_case (tc : junit.Testcase) : bool :=
  match junit.Testcase_Failure tc, junit.Testcase_Error tc with
  | None, None => true
  | _, _ => false
  end.

(** A benchmark with the given name and integer figures. *)
Definition int_Benchmark (name : string) (bytes allocs : Z) : Benchmark :=
  mkBenchmark name Pass [] 1 0 0 bytes allocs.

(** * Properties *)

(** ** Machine integers *)

Lemma wrap64_add_l (a b : Z) : wrap64 (wrap64 a + b) = wrap64 (a + b).
Proof.
  unfold wrap64. f_equal.
  replace ((a + 2 ^ 63) mod 2 ^ 64 - 2 ^ 63 + b + 2 ^ 63)
    with ((a + 2 ^ 63) mod 2 ^ 64 + b) by lia.
  rewrite Z.add_mod_idemp_l by lia. f_equal. lia.
Qed.

Lemma wrap64_in_range (z : Z) : in_int64 z = true -> wrap64 z = z.
Proof.
  unfold in_int64, min_int64, max_int64, wrap64. intros H.
  apply andb_true_iff in H as [H1 H2]. apply Z.leb_le in H1, H2.
  rewrite Z.mod_small by lia. lia.
Qed.

Lemma fold_add64_wrap (xs : list Z) (a : Z) :
  fold_left add64 xs (wrap64 a) = wrap64 (a + Zsum xs).
Proof.
  revert a. induction xs as [|x xs IH]; intros a; simpl.
  - now rewrite Z.add_0_r.
  - unfold add64 at 2. rewrite wrap64_add_l, IH. f_equal. lia.
Qed.

(** The wrapping sum is the sum modulo [2 ^ 64]. *)
Lemma sum_int64_wrap (xs : list Z) : sum_int64 xs = wrap64 (Zsum xs).
Proof. unfold sum_int64. change 0 with (wrap64 0) at 1. apply fold_add64_wrap. Qed.

(** ** Report.IsSuccessful *)

Lemma Result_eqb_eq (a b : Result) : Result_eqb a b = true <-> a = b.
Proof. destruct a, b; simpl; split; intros H; congruence. Qed.

Lemma Result_eqb_neq (a b : Result) : Result_eqb a b = false <-> a <> b.
Proof. destruct a, b; simpl; split; intros H; congruence. Qed.

Lemma nonempty_true (s : string) : nonempty s = true <-> s <> ""%string.
Proof.
  unfold nonempty. destruct (String.eqb_spec s ""); simpl; split; intros H; congruence.
Qed.

Lemma nonempty_false (s : string) : nonempty s = false <-> s = ""%string.
Proof.
  unfold nonempty. destruct (String.eqb_spec s ""); simpl; split; intros H; congruence.
Qed.

Lemma IsSuccessful_tests_false (tests : list Test) :
  IsSuccessful_tests tests = false <-> exists t, In t tests /\ failing_test t.
Proof.
  unfold failing_test. induction tests as [|t tests IH]; simpl.
  - split; [discriminate | intros (t & [] & _)].
  - destruct (Result_eqb (Test_Result t) Pass) eqn:EP; simpl.
    + apply Result_eqb_eq in EP. rewrite IH. split.
      * intros (u & Hu & Hf). exists u. auto.
      * intros (u & [-> | Hu] & Hf); [tauto | exists u; auto].
    + apply Result_eqb_neq in EP.
      destruct (Result_eqb (Test_Result t) Skip) eqn:ES; simpl.
      * apply Result_eqb_eq in ES. rewrite IH. split.
        -- intros (u & Hu & Hf). exists u. auto.
        -- intros (u & [-> | Hu] & Hf); [tauto | exists u; auto].
      * apply Result_eqb_neq in ES. split; [|reflexivity].
        intros _. exists t. auto.
Qed.

Lemma IsSuccessful_packages_false (pkgs : list Package) :
  IsSuccessful_packages pkgs = false <-> exists pkg, In pkg pkgs /\ failing_package pkg.
Proof.
  unfold failing_package. induction pkgs as [|pkg pkgs IH]; simpl.
  - split; [discriminate | intros (p & [] & _)].
  - destruct (nonempty (Error_Name (Package_BuildError pkg))) eqn:EB; simpl.
    { apply nonempty_true in EB. split; [|reflexivity]. intros _. exists pkg. auto. }
    destruct (nonempty (Error_Name (Package_RunError pkg))) eqn:ER; simpl.
    { apply nonempty_true in ER. split; [|reflexivity]. intros _. exists pkg. auto. }
    apply nonempty_false in EB, ER.
    destruct (IsSuccessful_tests (Package_Tests pkg)) eqn:ET.
    + rewrite IH. split.
      * intros (p & Hp & Hf). exists p. auto.
      * intros (p & [<- | Hp] & Hf); [|exists p; auto].
        destruct Hf as [Hf | [Hf | Hf]]; [congruence | congruence |].
        apply IsSuccessful_tests_false in Hf. congruence.
    + split; [|reflexivity]. intros _. exists pkg. split; [auto|].
      right. right. apply IsSuccessful_tests_false. exact ET.
Qed.

(** C1. [IsSuccessful] returns [false] exactly when some package of the
    report has a build error or a run error (an error whose name is not
    empty) or has a test whose result is neither Pass nor Skip; in every
    other case it returns [true]. *)
Theorem IsSuccessful_false_iff (r : Report) :
  (IsSuccessful r = false <->
     exists pkg, In pkg (Report_Packages r) /\
       (Error_Name (Package_BuildError pkg) <> ""%string
        \/ Error_Name (Package_RunError pkg) <> ""%string
        \/ exists t, In t (Package_Tests pkg) /\
             Test_Result t <> Pass /\ Test_Result t <> Skip))
  /\ (IsSuccessful r = true <->
        ~ exists pkg, In pkg (Report_Packages r) /\
            (Error_Name (Package_BuildError pkg) <> ""%string
             \/ Error_Name (Package_RunError pkg) <> ""%string
             \/ exists t, In t (Package_Tests pkg) /\
                  Test_Result t <> Pass /\ Test_Result t <> Skip)).
Proof.
  pose proof (IsSuccessful_packages_false (Report_Packages r)) as H.
  unfold failing_package, failing_test in H. fold (IsSuccessful r) in H.
  split; [exact H|].
  rewrite <- H. destruct (IsSuccessful r); split; intros; congruence.
Qed.

(** ** Output normalization *)

Lemma IndexFunc_from_spaces (i : Z) (n : nat) :
  IndexFunc_from i (spaces n) not_space = -1.
Proof.
  revert i. induction n as [|n IH]; intros i; simpl; [reflexivity|]. apply IH.
Qed.

Lemma not_space_true (c : ascii) : c <> " "%char -> not_space c = true.
Proof.
  intros H. unfold not_space, byte_eqb.
  destruct (Ascii.eqb_spec c " "); [contradiction | reflexivity].
Qed.

Lemma byte_eqb_space_false (c : ascii) : c <> " "%char -> byte_eqb c " " = false.
Proof.
  intros H. unfold byte_eqb. destruct (Ascii.eqb_spec c " "); [contradiction | reflexivity].
Qed.

Lemma IndexFunc_from_leading (i : Z) (n : nat) (rest : string) :
  starts_non_space rest ->
  IndexFunc_from i (spaces n +:+ rest) not_space = i + Z.of_nat n.
Proof.
  intros (c & s' & -> & Hc). revert i. induction n as [|n IH]; intros i.
  - simpl. rewrite (not_space_true c Hc). lia.
  - change (spaces (S n) +:+ String c s') with (String " "%char (spaces n +:+ String c s')).
    cbn [IndexFunc_from]. change (not_space " ") with false. cbv iota.
    rewrite IH. lia.
Qed.

Lemma leading_spaces_spaces (n : nat) : leading_spaces (spaces n) = n.
Proof. induction n as [|n IH]; simpl; [reflexivity | now rewrite IH]. Qed.

Lemma leading_spaces_app (n : nat) (rest : string) :
  starts_non_space rest -> leading_spaces (spaces n +:+ rest) = n.
Proof.
  intros (c & s' & -> & Hc). induction n as [|n IH]; simpl.
  - now rewrite (byte_eqb_space_false c Hc).
  - now rewrite IH.
Qed.

Lemma TrimPrefix_tab_space (s : string) :
  TrimPrefix (String " "%char s) tab = String " "%char s.
Proof. reflexivity. Qed.

Lemma TrimPrefix_tab_spaces (n : nat) : TrimPrefix (spaces n) tab = spaces n.
Proof. destruct n; reflexivity. Qed.

(** One [TrimPrefix(line, "    ")] on a line with [n] leading spaces. *)
Lemma TrimPrefix_indent4 (n : nat) (rest : string) :
  starts_non_space rest ->
  TrimPrefix (spaces n +:+ rest) indent4 =
  spaces (if (4 <=? n)%nat then n - 4 else n) +:+ rest.
Proof.
  intros (c & s' & -> & Hc).
  pose proof (byte_eqb_space_false c Hc) as Hb.
  unfold TrimPrefix, indent4.
  destruct n as [|[|[|[|n]]]]; simpl; rewrite ?Hb; try reflexivity.
  now rewrite Nat.sub_0_r.
Qed.

(** The loop of [trimOutputPrefix] after [k] iterations. *)
Lemma TrimPrefix_indent4_iter (k n : nat) (rest : string) :
  starts_non_space rest ->
  Nat.iter k (fun line => TrimPrefix line indent4) (spaces n +:+ rest) =
  spaces (n - 4 * Nat.min k (n / 4)) +:+ rest.
Proof.
  intros Hrest. induction k as [|k IH].
  - cbn [Nat.iter nat_rect]. replace (n - 4 * Nat.min 0 (n / 4))%nat with n by lia.
    reflexivity.
  - rewrite Nat.iter_succ, IH, TrimPrefix_indent4 by assumption.
    f_equal. f_equal.
    pose proof (Nat.div_mod_eq n 4) as Hdm.
    pose proof (Nat.mod_upper_bound n 4 ltac:(lia)) as Hm.
    destruct (Nat.leb_spec 4 (n - 4 * Nat.min k (n / 4))); lia.
Qed.

Lemma rem_of_nat_4 (n : nat) : (Z.rem (Z.of_nat n) 4 =? 0) = (n mod 4 =? 0)%nat.
Proof.
  rewrite Z.rem_mod_nonneg by lia.
  change 4 with (Z.of_nat 4). rewrite <- Nat2Z.inj_mod.
  destruct (Nat.eqb_spec (n mod 4) 0) as [E|E].
  - rewrite E. reflexivity.
  - apply Z.eqb_neq. lia.
Qed.

(** The loop of the source and its closed form. *)
Lemma trim_loop_from (k : nat) (level i : Z) (line : string) :
  0 <= i -> i + Z.of_nat k = level + 1 -> level < max_int64 ->
  trim_loop (S k) level i line =
  Some (Nat.iter k (fun line => TrimPrefix line indent4) line).
Proof.
  revert i line. induction k as [|k IH]; intros i line Hi Hk Hl.
  - cbn [trim_loop Nat.iter nat_rect].
    destruct (Z.leb_spec i level); [lia | reflexivity].
  - change (trim_loop (S (S k)) level i line)
      with (if i <=? level
            then trim_loop (S k) level (add64 i 1) (TrimPrefix line indent4)
            else Some line).
    destruct (Z.leb_spec i level); [|lia].
    assert (Hw : add64 i 1 = i + 1).
    { unfold add64. apply wrap64_in_range. unfold in_int64, min_int64, max_int64 in *.
      apply andb_true_iff. split; apply Z.leb_le; lia. }
    rewrite Hw, IH by lia. now rewrite Nat.iter_succ_r.
Qed.

Lemma trim_loop_returns (level : Z) (line : string) :
  level < max_int64 ->
  trim_loop (S (Z.to_nat (level + 1))) level 0 line =
  Some (Nat.iter (Z.to_nat (level + 1)) (fun line => TrimPrefix line indent4) line).
Proof.
  intros Hl. destruct (Z.le_gt_cases 0 (level + 1)) as [H|H].
  - apply trim_loop_from; lia.
  - replace (Z.to_nat (level + 1)) with O by lia.
    cbn [trim_loop Nat.iter nat_rect]. destruct (Z.leb_spec 0 level); [lia | reflexivity].
Qed.

Lemma trim_loop_max_int64 (fuel : nat) (i : Z) (line : string) :
  i <= max_int64 -> trim_loop fuel max_int64 i line = None.
Proof.
  revert i line. induction fuel as [|fuel IH]; intros i line Hi; [reflexivity|].
  cbn [trim_loop]. destruct (Z.leb_spec i max_int64); [|lia].
  apply IH. unfold add64, wrap64, max_int64.
  pose proof (Z.mod_pos_bound (i + 1 + 2 ^ 63) (2 ^ 64) ltac:(lia)). lia.
Qed.

(** C9. A line that consists of space characters only (the empty line
    included) comes out of [trimOutputPrefix] unchanged at every level:
    [IndexFunc] finds no character other than the space and returns [-1],
    whose remainder by [4] is [-1] and not [0], so that no group of spaces
    is stripped; the line has no leading tab either. *)
Theorem trimOutputPrefix_only_spaces (n : nat) (level : Z) :
  IndexFunc (spaces n) not_space = -1
  /\ Z.rem (IndexFunc (spaces n) not_space) 4 <> 0
  /\ trimOutputPrefix (spaces n) level = spaces n.
Proof.
  assert (H : IndexFunc (spaces n) not_space = -1) by apply IndexFunc_from_spaces.
  split; [exact H|]. split.
  - rewrite H. discriminate.
  - unfold trimOutputPrefix. rewrite H. cbn [Z.rem Z.quotrem Z.eqb].
    change (Z.rem (-1) 4 =? 0) with false. cbv iota. apply TrimPrefix_tab_spaces.
Qed.

(** C2 as it is written, stripping [level + 1] groups
    whenever the leading run is a multiple of four, fails on the code: the
    line of four spaces stays as it is at level 0, and the line
    ["    x"] at level 1 has a single group to lose. *)
Lemma trimOutputPrefix_not_level_groups :
  trimOutputPrefix "    " 0 = "    "%string
  /\ ~ strips_level_groups "    " 0 (trimOutputPrefix "    " 0)
  /\ trimOutputPrefix "    x" 1 = "x"%string
  /\ ~ strips_level_groups "    x" 1 (trimOutputPrefix "    x" 1).
Proof.
  split; [reflexivity|]. split; [|split; [reflexivity|]].
  - intros H. destruct (H eq_refl) as (rest & E & Hout).
    vm_compute in E. injection E as E. subst rest. vm_compute in Hout. discriminate.
  - intros H. destruct (H eq_refl) as (rest & E & Hout).
    vm_compute in E. discriminate.
Qed.

(** C2, amended. Let a line have [n] leading spaces followed by a
    character other than the space, and let the level be below
    [max_int64]. The loop of the source, run on the line, ends and has
    then stripped [level + 1] groups of four leading spaces, or all [n / 4]
    of them when the line has fewer. If [n] is a multiple of 4, the
    normalizer returns the line so stripped, less one leading tab if
    present. If [n] is not a multiple of 4, the line keeps all its spaces
    (and, as it begins with a space, has no leading tab to lose). With 8
    leading spaces at level 1 exactly those 8 are lost; 3 leading spaces
    are kept. *)
Theorem trimOutputPrefix_groups (n : nat) (rest : string) (level : Z) :
  starts_non_space rest ->
  min_int64 <= level < max_int64 ->
  leading_spaces (spaces n +:+ rest) = n
  /\ (exists fuel,
        trim_loop fuel level 0 (spaces n +:+ rest) =
        Some (spaces (n - 4 * Nat.min (Z.to_nat (level + 1)) (n / 4)) +:+ rest))
  /\ ((n mod 4 = 0)%nat ->
      trimOutputPrefix (spaces n +:+ rest) level =
      TrimPrefix (spaces (n - 4 * Nat.min (Z.to_nat (level + 1)) (n / 4)) +:+ rest) tab)
  /\ ((n mod 4 <> 0)%nat ->
      trimOutputPrefix (spaces n +:+ rest) level = spaces n +:+ rest
      /\ TrimPrefix (spaces n +:+ rest) tab = spaces n +:+ rest)
  /\ trimOutputPrefix (spaces 8 +:+ rest) 1 = TrimPrefix rest tab
  /\ trimOutputPrefix (spaces 3 +:+ rest) level = spaces 3 +:+ rest.
Proof.
  intros Hrest [_ Hlevel].
  assert (Hgen : forall m lv,
    trimOutputPrefix (spaces m +:+ rest) lv =
    TrimPrefix (if (m mod 4 =? 0)%nat
                then spaces (m - 4 * Nat.min (Z.to_nat (lv + 1)) (m / 4)) +:+ rest
                else spaces m +:+ rest) tab).
  { intros m lv. unfold trimOutputPrefix, IndexFunc.
    rewrite IndexFunc_from_leading by assumption.
    rewrite Z.add_0_l, rem_of_nat_4.
    destruct (m mod 4 =? 0)%nat; [|reflexivity].
    now rewrite TrimPrefix_indent4_iter. }
  split; [now apply leading_spaces_app|]. split; [|split; [|split; [|split]]].
  - exists (S (Z.to_nat (level + 1))).
    rewrite trim_loop_returns by exact Hlevel.
    now rewrite TrimPrefix_indent4_iter.
  - intros Hn. rewrite Hgen. apply Nat.eqb_eq in Hn. now rewrite Hn.
  - intros Hn. assert (Htab : TrimPrefix (spaces n +:+ rest) tab = spaces n +:+ rest).
    { destruct n as [|n]; [now rewrite Nat.Div0.mod_0_l in Hn | reflexivity]. }
    split; [|exact Htab].
    rewrite Hgen. apply Nat.eqb_neq in Hn. rewrite Hn. exact Htab.
  - rewrite Hgen. reflexivity.
  - rewrite Hgen. reflexivity.
Qed.

Lemma trimOutputPrefix_groups_witness :
  leading_spaces "        --- FAIL" = 8%nat
  /\ trimOutputPrefix "        --- FAIL" 0 = "    --- FAIL"%string
  /\ trimOutputPrefix "        --- FAIL" 1 = "--- FAIL"%string
  /\ trimOutputPrefix "   x" 1 = "   x"%string.
Proof.
  assert (Hrest : starts_non_space "--- FAIL").
  { exists "-"%char, "-- FAIL"%string. split; [reflexivity | discriminate]. }
  assert (Hx : starts_non_space "x").
  { exists "x"%char, ""%string. split; [reflexivity | discriminate]. }
  assert (H0 : min_int64 <= 0 < max_int64) by (unfold min_int64, max_int64; lia).
  assert (H1 : min_int64 <= 1 < max_int64) by (unfold min_int64, max_int64; lia).
  destruct (trimOutputPrefix_groups 8 "--- FAIL" 0 Hrest H0) as (Hl & _ & Hm & _ & _ & _).
  destruct (trimOutputPrefix_groups 8 "--- FAIL" 1 Hrest H1) as (_ & _ & _ & _ & H8 & _).
  destruct (trimOutputPrefix_groups 3 "x" 1 Hx H1) as (_ & _ & _ & _ & _ & H3).
  split; [exact Hl|]. split; [exact (Hm eq_refl)|]. split; [exact H8 | exact H3].
Defined.

(** ** Benchmark aggregation *)

Lemma first_seen_snoc (names : list string) (name : string) :
  first_seen (names ++ [name]) =
  if bool_decide (name ∈ first_seen names) then first_seen names
  else first_seen names ++ [name].
Proof. unfold first_seen. now rewrite fold_left_app. Qed.

Lemma first_seen_elem (names : list string) (name : string) :
  name ∈ first_seen names <-> name ∈ names.
Proof.
  revert name. induction names as [|x names IH] using rev_ind; intros name.
  - reflexivity.
  - rewrite first_seen_snoc. case_bool_decide as Hx.
    + rewrite elem_of_app, list_elem_of_singleton, IH. apply IH in Hx.
      intuition congruence.
    + rewrite !elem_of_app, IH. reflexivity.
Qed.

Lemma first_seen_NoDup (names : list string) : NoDup (first_seen names).
Proof.
  induction names as [|x names IH] using rev_ind.
  - constructor.
  - rewrite first_seen_snoc. case_bool_decide as Hx; [exact IH|].
    apply NoDup_app. split; [exact IH|]. split.
    + intros y Hy Hy'. apply list_elem_of_singleton in Hy'. congruence.
    + apply NoDup_singleton.
Qed.

Lemma same_name_snoc (name : string) (bs : list Benchmark) (b : Benchmark) :
  same_name name (bs ++ [b]) =
  same_name name bs ++ (if String.eqb (Benchmark_Name b) name then [b] else []).
Proof. unfold same_name. now rewrite List.filter_app. Qed.

Lemma same_name_absent (name : string) (bs : list Benchmark) :
  name ∉ map Benchmark_Name bs -> same_name name bs = [].
Proof.
  induction bs as [|b bs IH]; intros Hn; [reflexivity|]. simpl in *.
  rewrite not_elem_of_cons in Hn. destruct Hn as [Hne Hn].
  destruct (String.eqb_spec (Benchmark_Name b) name); [congruence | auto].
Qed.

Lemma same_name_present (name : string) (bs : list Benchmark) :
  name ∈ map Benchmark_Name bs -> same_name name bs <> [].
Proof.
  induction bs as [|b bs IH]; intros Hn; simpl in *.
  - now apply elem_of_nil in Hn.
  - destruct (String.eqb_spec (Benchmark_Name b) name) as [E|E]; [discriminate|].
    apply elem_of_cons in Hn as [Hn|Hn]; [congruence | auto].
Qed.

(** The state of the first loop of [mergeBenchmarks] after the benchmarks
    [bs]: [merged] holds one blank record per distinct name, in first-seen
    order, and [benchmap] maps each name to its records. *)
Lemma merge_collect_fold (bs : list Benchmark) :
  exists benchmap : gmap string (list Benchmark),
    fold_left merge_collect bs ([], ∅) =
      (map Benchmark_named (first_seen (map Benchmark_Name bs)), benchmap)
    /\ forall name,
         benchmap !! name =
         if bool_decide (name ∈ map Benchmark_Name bs) then Some (same_name name bs)
         else None.
Proof.
  induction bs as [|b bs IH] using rev_ind.
  - exists ∅. split; [reflexivity|]. intros name. rewrite lookup_empty.
    case_bool_decide as H; [now apply elem_of_nil in H | reflexivity].
  - destruct IH as (benchmap & Hfold & Hmap).
    exists (<[Benchmark_Name b := benchmap_get benchmap (Benchmark_Name b) ++ [b]]> benchmap).
    rewrite fold_left_app, Hfold. cbn [fold_left merge_collect]. split.
    + f_equal. rewrite map_app. cbn [map]. rewrite first_seen_snoc, Hmap.
      case_bool_decide as Hin; case_bool_decide as Hseen;
        rewrite first_seen_elem in Hseen; try contradiction; [reflexivity|].
      now rewrite map_app.
    + intros name. rewrite map_app. cbn [map]. rewrite same_name_snoc.
      destruct (String.eqb_spec (Benchmark_Name b) name) as [E|E].
      * subst name. rewrite lookup_insert_eq. unfold benchmap_get. rewrite Hmap.
        rewrite (bool_decide_eq_true_2 (Benchmark_Name b ∈ _ ++ _))
          by (rewrite elem_of_app, list_elem_of_singleton; auto).
        case_bool_decide as Hin; [reflexivity|]. cbn [default].
        now rewrite (same_name_absent _ _ Hin).
      * rewrite lookup_insert_ne by exact E. rewrite Hmap, app_nil_r.
        apply (f_equal (fun d : bool => if d then Some (same_name name bs) else None)).
        apply bool_decide_ext. rewrite elem_of_app, list_elem_of_singleton.
        intuition congruence.
Qed.

(** The inner loop of the second loop of [mergeBenchmarks], field by field. *)
Lemma merge_add_fold (group : list Benchmark) (bm : Benchmark) :
  fold_left merge_add group bm =
  {| Benchmark_Name := Benchmark_Name bm;
     Benchmark_Result := Benchmark_Result bm;
     Benchmark_Output := Benchmark_Output bm;
     Benchmark_Iterations := Benchmark_Iterations bm;
     Benchmark_NsPerOp :=
       fold_left PrimFloat.add (map Benchmark_NsPerOp group) (Benchmark_NsPerOp bm);
     Benchmark_MBPerSec :=
       fold_left PrimFloat.add (map Benchmark_MBPerSec group) (Benchmark_MBPerSec bm);
     Benchmark_BytesPerOp :=
       fold_left add64 (map Benchmark_BytesPerOp group) (Benchmark_BytesPerOp bm);
     Benchmark_AllocsPerOp :=
       fold_left add64 (map Benchmark_AllocsPerOp group) (Benchmark_AllocsPerOp bm) |}.
Proof.
  revert bm. induction group as [|b group IH]; intros bm.
  - now destruct bm.
  - cbn [fold_left map]. rewrite IH. reflexivity.
Qed.

Lemma merge_average_named (benchmap : gmap string (list Benchmark)) (name : string)
  (group : list Benchmark) :
  benchmap !! name = Some group ->
  merge_average benchmap (Benchmark_named name) = aggregate name group.
Proof.
  intros H. unfold merge_average, benchmap_get. cbn [Benchmark_named Benchmark_Name].
  rewrite H. cbn [default]. rewrite merge_add_fold. reflexivity.
Qed.

(** [mergeBenchmarks] in closed form. *)
Lemma mergeBenchmarks_closed (bs : list Benchmark) :
  mergeBenchmarks bs =
  map (fun name => aggregate name (same_name name bs)) (first_seen (map Benchmark_Name bs)).
Proof.
  unfold mergeBenchmarks.
  destruct (merge_collect_fold bs) as (benchmap & -> & Hmap).
  rewrite map_map. apply map_ext_in. intros name Hin.
  apply merge_average_named. rewrite Hmap.
  apply list_elem_of_In in Hin. rewrite first_seen_elem in Hin.
  rewrite bool_decide_eq_true_2 by exact Hin. reflexivity.
Qed.

(** C3 as it is written fails on the integer metrics, which are not the
    arithmetic mean in general: two records with 1 and 2 bytes/op
    aggregate to 1 byte/op, and twice 1 is not 1 + 2. *)
Lemma mergeBenchmarks_bytes_not_mean :
  exists r,
    mergeBenchmarks
      [mkBenchmark "BenchX" Pass [] 10 100 0 1 0; mkBenchmark "BenchX" Pass [] 10 300 0 2 0]
    = [r]
    /\ Benchmark_BytesPerOp r = 1
    /\ ~ is_mean (Benchmark_BytesPerOp r) [1; 2].
Proof.
  eexists. split; [vm_compute; reflexivity|]. split; [reflexivity|].
  cbn [Benchmark_BytesPerOp]. unfold is_mean. simpl. lia.
Qed.

Lemma same_name_with_Iterations (name : string) (iterations : Benchmark -> Z)
  (bs : list Benchmark) :
  same_name name (map (fun b => with_Iterations b (iterations b)) bs) =
  map (fun b => with_Iterations b (iterations b)) (same_name name bs).
Proof.
  unfold same_name. induction bs as [|b bs IH]; [reflexivity|].
  cbn [map List.filter with_Iterations Benchmark_Name].
  destruct (String.eqb (Benchmark_Name b) name); cbn [map]; now rewrite IH.
Qed.

Lemma aggregate_with_Iterations (name : string) (iterations : Benchmark -> Z)
  (group : list Benchmark) :
  aggregate name (map (fun b => with_Iterations b (iterations b)) group) =
  aggregate name group.
Proof. unfold aggregate. now rewrite !map_map, length_map. Qed.

(** C3, amended. [mergeBenchmarks] produces one record per distinct name,
    in first-seen order of the distinct names. In the record of a name,
    ns/op and MB/s are the [float64] sum of the metric over the records of
    that name, added in order from zero, divided by their number; bytes/op
    and allocs/op are the [int64] sum of the metric (the sum modulo
    [2 ^ 64]) divided by that number with the quotient truncated toward
    zero. Every name has at least one record. The iteration count is not
    aggregated: the iteration counts of the records have no part in what
    is returned. Two records named "BenchX" with ns/op 100 and 300
    aggregate to one record, with ns/op 200. *)
Theorem mergeBenchmarks_aggregate (bs : list Benchmark) :
  let names := first_seen (map Benchmark_Name bs) in
  NoDup names
  /\ (forall name, name ∈ names <-> name ∈ map Benchmark_Name bs)
  /\ map Benchmark_metrics (mergeBenchmarks bs) =
     map (fun name =>
            let group := same_name name bs in
            (name,
             (sum_float64 (map Benchmark_NsPerOp group)
              / float64_of_len (length group))%float,
             (sum_float64 (map Benchmark_MBPerSec group)
              / float64_of_len (length group))%float,
             Z.quot (wrap64 (Zsum (map Benchmark_BytesPerOp group)))
                    (Z.of_nat (length group)),
             Z.quot (wrap64 (Zsum (map Benchmark_AllocsPerOp group)))
                    (Z.of_nat (length group))))
         names
  /\ Forall (fun name => (0 < length (same_name name bs))%nat) names
  /\ (forall iterations : Benchmark -> Z,
        mergeBenchmarks (map (fun b => with_Iterations b (iterations b)) bs) =
        mergeBenchmarks bs)
  /\ map (fun r => (Benchmark_Name r, Benchmark_NsPerOp r))
       (mergeBenchmarks
          [mkBenchmark "BenchX" Pass [] 10 100 0 0 0;
           mkBenchmark "BenchX" Pass [] 10 300 0 0 0])
     = [("BenchX"%string, 200%float)].
Proof.
  intros names. split; [apply first_seen_NoDup|].
  split; [intros name; apply first_seen_elem|]. split; [|split; [|split]].
  - rewrite mergeBenchmarks_closed, map_map. apply map_ext. intros name.
    unfold Benchmark_metrics, aggregate.
    cbn [Benchmark_Name Benchmark_NsPerOp Benchmark_MBPerSec Benchmark_BytesPerOp
         Benchmark_AllocsPerOp].
    now rewrite <- !sum_int64_wrap.
  - apply Forall_forall. intros name Hin. unfold names in Hin.
    rewrite first_seen_elem in Hin. apply same_name_present in Hin.
    destruct (same_name name bs); [congruence | simpl; lia].
  - intros iterations. rewrite !mergeBenchmarks_closed, map_map.
    cbn [with_Iterations Benchmark_Name]. apply map_ext. intros name.
    now rewrite same_name_with_Iterations, aggregate_with_Iterations.
  - vm_compute. reflexivity.
Qed.

(** ** The renderer *)

Lemma append_cons (c : ascii) (s t : string) : String c s +:+ t = String c (s +:+ t).
Proof. reflexivity. Qed.

Lemma append_nil_l (s : string) : "" +:+ s = s.
Proof. reflexivity. Qed.

Lemma append_nil_r (s : string) : s +:+ "" = s.
Proof.
  induction s as [|c s IH]; [reflexivity|]. now rewrite append_cons, IH.
Qed.

Lemma append_assoc (s t u : string) : (s +:+ t) +:+ u = s +:+ (t +:+ u).
Proof.
  induction s as [|c s IH]; [reflexivity|]. now rewrite !append_cons, IH.
Qed.

(** The keys of [propPrefixes]. *)
Lemma propPrefixes_get_true (key : string) :
  propPrefixes_get key = true <->
  key = "goos"%string \/ key = "goarch"%string \/ key = "pkg"%string.
Proof.
  unfold propPrefixes_get, propPrefixes. split.
  - intros H.
    destruct (decide (key = "goos"%string)) as [->|H1]; [auto|].
    destruct (decide (key = "goarch"%string)) as [->|H2]; [auto|].
    destruct (decide (key = "pkg"%string)) as [->|H3]; [auto|].
    rewrite !lookup_insert_ne, lookup_empty in H by congruence. discriminate.
  - intros [-> | [-> | ->]]; reflexivity.
Qed.

Lemma FieldsFunc_from_token (field token rest : string) :
  no_separator token = true ->
  FieldsFunc_from field (token +:+ rest) propFieldsFunc =
  FieldsFunc_from (field +:+ token) rest propFieldsFunc.
Proof.
  revert field. induction token as [|c token IH]; intros field H.
  - now rewrite append_nil_l, append_nil_r.
  - cbn [no_separator] in H. apply andb_true_iff in H as [Hc Ht].
    apply negb_true_iff in Hc. rewrite append_cons. cbn [FieldsFunc_from]. rewrite Hc.
    rewrite IH by exact Ht. now rewrite append_assoc.
Qed.

(** A line [key: value] splits into the two fields [key] and [value]. *)
Lemma FieldsFunc_key_value (key value : string) :
  key <> ""%string -> value <> ""%string ->
  no_separator key = true -> no_separator value = true ->
  FieldsFunc (key +:+ ": " +:+ value) propFieldsFunc = [key; value].
Proof.
  intros Hk Hv Hks Hvs. unfold FieldsFunc.
  rewrite FieldsFunc_from_token by exact Hks.
  rewrite append_nil_l, !append_cons, append_nil_l. cbn [FieldsFunc_from].
  change (propFieldsFunc ":") with true. change (propFieldsFunc " ") with true. cbv iota.
  destruct (String.eqb_spec key "") as [E|_]; [contradiction|]. f_equal.
  change (String.eqb "" "") with true. cbv iota.
  replace value with (value +:+ "") at 1 by apply append_nil_r.
  rewrite FieldsFunc_from_token by exact Hvs. rewrite append_nil_l. cbn [FieldsFunc_from].
  destruct (String.eqb_spec value "") as [E|_]; [contradiction | reflexivity].
Qed.

Lemma JUnit_property_line (suite : junit.Testsuite) (line : string) :
  JUnit_property suite line =
  match line_property line with
  | Some p => junit.AddProperty suite (junit.Property_Name p) (junit.Property_Value p)
  | None => suite
  end.
Proof.
  unfold JUnit_property, line_property.
  destruct (FieldsFunc line propFieldsFunc) as [|key [|value [|? ?]]]; try reflexivity.
  now destruct (propPrefixes_get key).
Qed.

(** The loop that extracts properties appends the properties of the
    lines, in order, and touches nothing else. *)
Lemma JUnit_property_fold (lines : list string) (name timestamp hostname : string)
  (properties : list junit.Property) (out : option junit.Output)
  (testcases : list junit.Testcase) (time : string) :
  fold_left JUnit_property lines
    (junit.mkTestsuite name timestamp hostname properties out testcases time) =
  junit.mkTestsuite name timestamp hostname (properties ++ omap line_property lines)
    out testcases time.
Proof.
  revert properties. induction lines as [|line lines IH]; intros properties.
  - cbn [fold_left omap list_omap]. now rewrite app_nil_r.
  - cbn [fold_left omap list_omap]. rewrite JUnit_property_line.
    destruct (line_property line) as [[key value]|]; [|apply IH].
    unfold junit.AddProperty.
    cbn [junit.Testsuite_Name junit.Testsuite_Timestamp junit.Testsuite_Hostname
         junit.Testsuite_Properties junit.Testsuite_SystemOut junit.Testsuite_Testcases
         junit.Testsuite_Time junit.Property_Name junit.Property_Value].
    rewrite IH. now rewrite <- app_assoc.
Qed.

(** A loop that adds one test-case per element appends their test-cases,
    in order, and touches nothing else. *)
Lemma AddTestcase_fold {A : Type} (f : A -> junit.Testcase) (l : list A)
  (name timestamp hostname : string)
  (properties : list junit.Property) (out : option junit.Output)
  (testcases : list junit.Testcase) (time : string) :
  fold_left (fun suite x => junit.AddTestcase suite (f x)) l
    (junit.mkTestsuite name timestamp hostname properties out testcases time) =
  junit.mkTestsuite name timestamp hostname properties out (testcases ++ map f l) time.
Proof.
  revert testcases. induction l as [|x l IH]; intros testcases.
  - cbn [fold_left map]. now rewrite app_nil_r.
  - cbn [fold_left map]. unfold junit.AddTestcase at 2.
    cbn [junit.Testsuite_Name junit.Testsuite_Timestamp junit.Testsuite_Hostname
         junit.Testsuite_Properties junit.Testsuite_SystemOut junit.Testsuite_Testcases
         junit.Testsuite_Time].
    rewrite IH. now rewrite <- app_assoc.
Qed.

(** The loop over the tests, on the pair of [duration] and [suite]. *)
Lemma JUnit_tests_fold (f : Test -> junit.Testcase) (tests : list Test) (duration : Z)
  (suite : junit.Testsuite) :
  fold_left
    (fun '(duration, suite) test =>
       (add64 duration (Test_Duration test), junit.AddTestcase suite (f test)))
    tests (duration, suite) =
  (fold_left add64 (map Test_Duration tests) duration,
   fold_left (fun suite test => junit.AddTestcase suite (f test)) tests suite).
Proof.
  revert duration suite. induction tests as [|t tests IH]; intros duration suite.
  - reflexivity.
  - cbn [fold_left map]. now rewrite IH.
Qed.

(** The setters of a suite, on a suite that is given by its fields. *)
Lemma AddProperty_fields (name timestamp hostname : string)
  (properties : list junit.Property) (out : option junit.Output)
  (testcases : list junit.Testcase) (time key value : string) :
  junit.AddProperty
    (junit.mkTestsuite name timestamp hostname properties out testcases time) key value =
  junit.mkTestsuite name timestamp hostname
    (properties ++ [junit.mkProperty key value]) out testcases time.
Proof. reflexivity. Qed.

Lemma AddTestcase_fields (name timestamp hostname : string)
  (properties : list junit.Property) (out : option junit.Output)
  (testcases : list junit.Testcase) (time : string) (tc : junit.Testcase) :
  junit.AddTestcase
    (junit.mkTestsuite name timestamp hostname properties out testcases time) tc =
  junit.mkTestsuite name timestamp hostname properties out (testcases ++ [tc]) time.
Proof. reflexivity. Qed.

Lemma set_SystemOut_fields (name timestamp hostname : string)
  (properties : list junit.Property) (out out' : option junit.Output)
  (testcases : list junit.Testcase) (time : string) :
  junit.set_SystemOut
    (junit.mkTestsuite name timestamp hostname properties out testcases time) out' =
  junit.mkTestsuite name timestamp hostname properties out' testcases time.
Proof. reflexivity. Qed.

Lemma set_Time_fields (name timestamp hostname : string)
  (properties : list junit.Property) (out : option junit.Output)
  (testcases : list junit.Testcase) (time time' : string) :
  junit.set_Time
    (junit.mkTestsuite name timestamp hostname properties out testcases time) time' =
  junit.mkTestsuite name timestamp hostname properties out testcases time'.
Proof. reflexivity. Qed.

Section RendererProperties.

Variable FormatDuration : Z -> string.
Variable FormatBenchmarkTime : Z -> string.
Variable Sprintf_2f : float -> string.
Variable time_Time : Type.
Variable Format_RFC3339 : time_Time -> string.
Variable float64_unrepresentable : float -> Z.

Local Abbreviation render :=
  (JUnit_package FormatDuration FormatBenchmarkTime Sprintf_2f float64_unrepresentable).
Local Abbreviation render_test := (JUnit_test FormatDuration).
Local Abbreviation render_benchmark :=
  (JUnit_benchmark FormatBenchmarkTime float64_unrepresentable).
Local Abbreviation render_build_error := (JUnit_build_error FormatDuration).
Local Abbreviation render_run_error := (JUnit_run_error FormatDuration).

(** The suite of a package, field by field. *)
Lemma JUnit_package_fields (hostname timestamp : string) (pkg : Package) :
  render hostname timestamp pkg =
  {| junit.Testsuite_Name := Package_Name pkg;
     junit.Testsuite_Timestamp := timestamp;
     junit.Testsuite_Hostname := hostname;
     junit.Testsuite_Properties :=
       (if (0 <? Package_Coverage pkg)%float
        then [{| junit.Property_Name := "coverage.statements.pct";
                 junit.Property_Value := Sprintf_2f (Package_Coverage pkg) |}]
        else [])
       ++ omap line_property (Package_Output pkg);
     junit.Testsuite_SystemOut :=
       if (0 <? length (Package_Output pkg))%nat
       then Some {| junit.Output_Data := formatOutput (Package_Output pkg) 0 |}
       else None;
     junit.Testsuite_Testcases :=
       map (render_test pkg) (Package_Tests pkg)
       ++ map (render_benchmark pkg) (mergeBenchmarks (Package_Benchmarks pkg))
       ++ (if nonempty (Error_Name (Package_BuildError pkg))
           then [render_build_error pkg] else [])
       ++ (if nonempty (Error_Name (Package_RunError pkg))
           then [render_run_error pkg] else []);
     junit.Testsuite_Time :=
       FormatDuration
         (if Package_Duration pkg =? 0
          then sum_int64 (map Test_Duration (Package_Tests pkg))
          else Package_Duration pkg) |}.
Proof.
  unfold JUnit_package, sum_int64.
  destruct (0 <? length (Package_Output pkg))%nat;
    destruct (0 <? Package_Coverage pkg)%float;
    destruct (nonempty (Error_Name (Package_BuildError pkg)));
    destruct (nonempty (Error_Name (Package_RunError pkg)));
    destruct (Package_Duration pkg =? 0);
    rewrite ?set_SystemOut_fields, ?AddProperty_fields, JUnit_property_fold,
      JUnit_tests_fold, !AddTestcase_fold, ?AddTestcase_fields, set_Time_fields;
    cbn [app]; rewrite ?app_nil_r, <- ?app_assoc; reflexivity.
Qed.

(** [JUnit] renders the packages of the report one by one, in order. *)
Lemma JUnit_suites (report : Report) (hostname : string) (now : time_Time) :
  JUnit FormatDuration FormatBenchmarkTime Sprintf_2f time_Time Format_RFC3339
        float64_unrepresentable report hostname now =
  map (render hostname (Format_RFC3339 now)) (Report_Packages report).
Proof.
  unfold JUnit.
  assert (H : forall pkgs suites,
    fold_left
      (fun suites pkg =>
         junit.AddSuite suites (render hostname (Format_RFC3339 now) pkg))
      pkgs suites
    = suites ++ map (render hostname (Format_RFC3339 now)) pkgs).
  { induction pkgs as [|pkg pkgs IH]; intros suites; cbn [fold_left map].
    - now rewrite app_nil_r.
    - rewrite IH. unfold junit.AddSuite. now rewrite <- app_assoc. }
  apply H.
Qed.


Lemma line_property_key (line : string) (p : junit.Property) :
  line_property line = Some p -> propPrefixes_get (junit.Property_Name p) = true.
Proof.
  unfold line_property.
  destruct (FieldsFunc line propFieldsFunc) as [|key [|value [|? ?]]]; try discriminate.
  destruct (propPrefixes_get key) eqn:E; [|discriminate].
  intros [= <-]. exact E.
Qed.


(** C4. The test-case at the place of a test of the package carries the
    package name as class, the test name and the formatted duration. The
    normalized output of the test is its output lines, each normalized by
    [trimOutputPrefix] at the level of the test, joined by line breaks. For
    a Fail result the test-case has a failure record with the message
    "Failed" and the normalized output as data; for a Skip result a skipped
    record whose message is the normalized output and whose data is empty;
    for an Unknown result an error record with the message
    "No test result found" and the normalized output as data; for a Pass
    result none of the three records. *)
Theorem JUnit_test_case (hostname timestamp : string) (pkg : Package) (i : nat)
  (test : Test) :
  Package_Tests pkg !! i = Some test ->
  let normalized :=
    Join (map (fun line => trimOutputPrefix line (Test_Level test)) (Test_Output test))
         newline in
  exists tc,
    junit.Testsuite_Testcases (render hostname timestamp pkg) !! i = Some tc
    /\ junit.Testcase_Classname tc = Package_Name pkg
    /\ junit.Testcase_Name tc = Test_Name test
    /\ junit.Testcase_Time tc = FormatDuration (Test_Duration test)
    /\ match Test_Result test with
       | Fail =>
           junit.Testcase_Failure tc =
             Some {| junit.Result_Message := "Failed";
                     junit.Result_Data := normalized |}
           /\ junit.Testcase_Error tc = None
           /\ junit.Testcase_Skipped tc = None
       | Skip =>
           junit.Testcase_Skipped tc =
             Some {| junit.Result_Message := normalized;
                     junit.Result_Data := "" |}
           /\ junit.Testcase_Failure tc = None
           /\ junit.Testcase_Error tc = None
       | Unknown =>
           junit.Testcase_Error tc =
             Some {| junit.Result_Message := "No test result found";
                     junit.Result_Data := normalized |}
           /\ junit.Testcase_Failure tc = None
           /\ junit.Testcase_Skipped tc = None
       | Pass =>
           junit.Testcase_Failure tc = None
           /\ junit.Testcase_Error tc = None
           /\ junit.Testcase_Skipped tc = None
       end.
Proof.
  intros Hi normalized. exists (render_test pkg test). split.
  - rewrite JUnit_package_fields. cbn [junit.Testsuite_Testcases].
    apply lookup_app_l_Some.
    change (map (render_test pkg) (Package_Tests pkg))
      with (render_test pkg <$> Package_Tests pkg).
    now rewrite list_lookup_fmap, Hi.
  - unfold JUnit_test, formatOutput. fold normalized.
    destruct (Test_Result test); cbn; repeat split; reflexivity.
Qed.

(** C5. The total time of the suite is the formatted sum of the durations
    of the package's tests when the package's own duration is zero (the sum
    of [time.Duration] values, which is the exact sum whenever that fits
    the 64 bits of a duration), and the package's own duration, formatted,
    otherwise; whatever the benchmarks of the package are, the total is
    the same. *)
Theorem JUnit_suite_time (hostname timestamp : string) (pkg : Package) :
  let suite := render hostname timestamp pkg in
  let total := Zsum (map Test_Duration (Package_Tests pkg)) in
  (Package_Duration pkg = 0 ->
   junit.Testsuite_Time suite = FormatDuration (wrap64 total))
  /\ (Package_Duration pkg = 0 -> in_int64 total = true ->
      junit.Testsuite_Time suite = FormatDuration total)
  /\ (Package_Duration pkg <> 0 ->
      junit.Testsuite_Time suite = FormatDuration (Package_Duration pkg))
  /\ (forall benchmarks,
        junit.Testsuite_Time (render hostname timestamp (with_Benchmarks pkg benchmarks))
        = junit.Testsuite_Time suite).
Proof.
  intros suite total. unfold suite.
  split; [|split; [|split]].
  - intros H0. rewrite JUnit_package_fields. cbn [junit.Testsuite_Time].
    rewrite H0. cbn [Z.eqb]. now rewrite sum_int64_wrap.
  - intros H0 Hr. rewrite JUnit_package_fields. cbn [junit.Testsuite_Time].
    rewrite H0. cbn [Z.eqb]. rewrite sum_int64_wrap. now rewrite wrap64_in_range.
  - intros Hn. rewrite JUnit_package_fields. cbn [junit.Testsuite_Time].
    apply Z.eqb_neq in Hn. now rewrite Hn.
  - intros benchmarks. rewrite !JUnit_package_fields. reflexivity.
Qed.

Lemma mergeBenchmarks_Result (benchmarks : list Benchmark) :
  Forall (fun bm => Benchmark_Result bm = Unknown) (mergeBenchmarks benchmarks).
Proof.
  rewrite mergeBenchmarks_closed. apply Forall_forall. intros bm Hin.
  apply list_elem_of_In, in_map_iff in Hin. destruct Hin as (name & <- & _). reflexivity.
Qed.

(** C6, on the code. Every record that [mergeBenchmarks] returns has the
    result Unknown, whatever the results of the benchmarks of the package,
    so that no test-case of a benchmark has a failure record; the package
    "pkg" with the one benchmark "BenchX" of result Fail and 100 ns/op
    renders the single test-case of class "pkg", name "BenchX" and time
    [FormatBenchmarkTime 100], without failure record. *)
Theorem JUnit_benchmark_failure_dropped (hostname timestamp : string) :
  (forall pkg : Package,
     Forall (fun tc => junit.Testcase_Failure tc = None)
       (map (render_benchmark pkg) (mergeBenchmarks (Package_Benchmarks pkg))))
  /\ junit.Testsuite_Testcases
       (render hostname timestamp
          (with_Benchmarks (empty_Package "pkg")
             [mkBenchmark "BenchX" Fail [] 10 100 0 0 0]))
     = [{| junit.Testcase_Classname := "pkg";
           junit.Testcase_Name := "BenchX";
           junit.Testcase_Time := FormatBenchmarkTime 100;
           junit.Testcase_Skipped := None;
           junit.Testcase_Error := None;
           junit.Testcase_Failure := None |}].
Proof.
  split.
  - intros pkg. apply Forall_forall. intros tc Hin.
    apply list_elem_of_In, in_map_iff in Hin. destruct Hin as (bm & <- & Hbm).
    pose proof (mergeBenchmarks_Result (Package_Benchmarks pkg)) as HR.
    rewrite Forall_forall in HR. apply list_elem_of_In, HR in Hbm.
    unfold JUnit_benchmark. cbn [junit.Testcase_Failure]. now rewrite Hbm.
  - vm_compute. reflexivity.
Qed.


(** C8. The properties of a suite are the coverage property, if any,
    followed by one property per output line of the package that splits at
    colons and spaces into exactly two fields of which the first is a key
    of the allow-list, with the two fields as name and value, in the order
    of the lines: no matching line is left out, whatever the keys seen
    before. The allow-list is goos, goarch, pkg; a line [key: value] with
    an allowed key and a value without colon and space is such a line. *)
Theorem JUnit_output_properties (hostname timestamp : string) (pkg : Package) :
  junit.Testsuite_Properties (render hostname timestamp pkg) =
    (if (0 <? Package_Coverage pkg)%float
     then [{| junit.Property_Name := "coverage.statements.pct";
              junit.Property_Value := Sprintf_2f (Package_Coverage pkg) |}]
     else [])
    ++ omap line_property (Package_Output pkg)
  /\ (forall line p,
        line_property line = Some p <->
        FieldsFunc line propFieldsFunc = [junit.Property_Name p; junit.Property_Value p]
        /\ (junit.Property_Name p = "goos"%string
            \/ junit.Property_Name p = "goarch"%string
            \/ junit.Property_Name p = "pkg"%string))
  /\ (forall key value,
        key = "goos"%string \/ key = "goarch"%string \/ key = "pkg"%string ->
        value <> ""%string -> no_separator value = true ->
        line_property (key +:+ ": " +:+ value) =
        Some {| junit.Property_Name := key; junit.Property_Value := value |}).
Proof.
  split; [|split].
  - rewrite JUnit_package_fields. reflexivity.
  - intros line p. unfold line_property. rewrite <- propPrefixes_get_true.
    destruct (FieldsFunc line propFieldsFunc) as [|key [|value [|? ?]]];
      try (split; [discriminate | intros [[=] _]]).
    destruct (propPrefixes_get key) eqn:E; split.
    + intros [= <-]. cbn. auto.
    + intros [[= -> ->] _]. now destruct p.
    + discriminate.
    + intros [[= -> ->] H]. congruence.
  - intros key value Hkey Hv Hvs. unfold line_property.
    rewrite FieldsFunc_key_value; [| |exact Hv| |exact Hvs].
    + apply propPrefixes_get_true in Hkey. now rewrite Hkey.
    + destruct Hkey as [-> | [-> | ->]]; discriminate.
    + destruct Hkey as [-> | [-> | ->]]; reflexivity.
Qed.

(** C10. A suite has a property named "coverage.statements.pct" exactly
    when the coverage of the package is greater than 0, and that property
    is then the one whose value is the coverage formatted with "%.2f"; a
    package of coverage 0 has none. *)
Theorem JUnit_coverage_property (hostname timestamp : string) (pkg : Package)
  (p : junit.Property) :
  (In p (junit.Testsuite_Properties (render hostname timestamp pkg))
   /\ junit.Property_Name p = "coverage.statements.pct"%string)
  <->
  ((0 <? Package_Coverage pkg)%float = true
   /\ p = {| junit.Property_Name := "coverage.statements.pct";
             junit.Property_Value := Sprintf_2f (Package_Coverage pkg) |}).
Proof.
  rewrite JUnit_package_fields. cbn [junit.Testsuite_Properties]. rewrite in_app_iff.
  split.
  - intros [[Hin | Hin] Hname].
    + destruct (0 <? Package_Coverage pkg)%float; [|destruct Hin].
      destruct Hin as [<- | []]. auto.
    + apply list_elem_of_In, list_elem_of_omap in Hin. destruct Hin as (line & _ & Hline).
      apply line_property_key, propPrefixes_get_true in Hline.
      rewrite Hname in Hline. destruct Hline as [H | [H | H]]; discriminate.
  - intros [Hcov ->]. rewrite Hcov. split; [left; left; reflexivity | reflexivity].
Qed.

End RendererProperties.

(** ** Instances on the example package *)

Lemma JUnit_test_case_witness :
  (exists tc,
     junit.Testsuite_Testcases
       (JUnit_package show_Duration show_Duration show_Coverage unrepresentable_zero
          "host" "2026-01-01T00:00:00Z" example_Package) !! 1%nat = Some tc
     /\ junit.Testcase_Classname tc = "example/pkg"%string
     /\ junit.Testcase_Name tc = "TestB"%string
     /\ junit.Testcase_Time tc = "2000000000"%string
     /\ junit.Testcase_Failure tc =
          Some {| junit.Result_Message := "Failed";
                  junit.Result_Data :=
                    String.concat (String (ascii_of_nat 10) "")
                      ["--- FAIL: TestB/sub"%string; "b_test.go:7: boom"%string] |}
        /\ junit.Testcase_Error tc = None
        /\ junit.Testcase_Skipped tc = None)
  /\ (exists tc,
        junit.Testsuite_Testcases
          (JUnit_package show_Duration show_Duration show_Coverage unrepresentable_zero
             "host" "2026-01-01T00:00:00Z" example_Package) !! 2%nat = Some tc
        /\ junit.Testcase_Classname tc = "example/pkg"%string
        /\ junit.Testcase_Name tc = "TestC"%string
        /\ junit.Testcase_Time tc = "0"%string
        /\ junit.Testcase_Skipped tc =
             Some {| junit.Result_Message := "c_test.go:3: skipped";
                     junit.Result_Data := "" |}
           /\ junit.Testcase_Failure tc = None
           /\ junit.Testcase_Error tc = None).
Proof.
  split.
  - apply (JUnit_test_case show_Duration show_Duration show_Coverage unrepresentable_zero
             "host" "2026-01-01T00:00:00Z" example_Package 1
             (mkTest "TestB" 2000000000 Fail 1
                ["        --- FAIL: TestB/sub"; "    b_test.go:7: boom"])).
    reflexivity.
  - apply (JUnit_test_case show_Duration show_Duration show_Coverage unrepresentable_zero
             "host" "2026-01-01T00:00:00Z" example_Package 2
             (mkTest "TestC" 0 Skip 0 ["    c_test.go:3: skipped"])).
    reflexivity.
Defined.

Lemma JUnit_suite_time_witness :
  junit.Testsuite_Time
    (JUnit_package show_Duration show_Duration show_Coverage unrepresentable_zero
       "host" "2026-01-01T00:00:00Z" example_Package) = show_Duration 3000000000
  /\ junit.Testsuite_Time
       (JUnit_package show_Duration show_Duration show_Coverage unrepresentable_zero
          "host" "2026-01-01T00:00:00Z" example_Package_5s) = show_Duration 5000000000.
Proof.
  split.
  - apply (proj1 (proj2 (JUnit_suite_time show_Duration show_Duration show_Coverage
                           unrepresentable_zero "host" "2026-01-01T00:00:00Z"
                           example_Package))); reflexivity.
  - apply (proj1 (proj2 (proj2 (JUnit_suite_time show_Duration show_Duration show_Coverage
                                  unrepresentable_zero "host" "2026-01-01T00:00:00Z"
                                  example_Package_5s)))).
    simpl. lia.
Defined.

Lemma JUnit_output_properties_witness :
  line_property "pkg: example/pkg" =
    Some {| junit.Property_Name := "pkg"; junit.Property_Value := "example/pkg" |}
  /\ junit.Testsuite_Properties
       (JUnit_package show_Duration show_Duration show_Coverage unrepresentable_zero
          "host" "2026-01-01T00:00:00Z" example_Package) =
     [ {| junit.Property_Name := "goos"; junit.Property_Value := "linux" |};
       {| junit.Property_Name := "goarch"; junit.Property_Value := "amd64" |};
       {| junit.Property_Name := "goos"; junit.Property_Value := "darwin" |} ].
Proof.
  destruct (JUnit_output_properties show_Duration show_Duration show_Coverage
              unrepresentable_zero "host" "2026-01-01T00:00:00Z" example_Package)
    as (Hprops & _ & Hline).
  split.
  - apply (Hline "pkg"%string "example/pkg"%string);
      [right; right; reflexivity | discriminate | reflexivity].
  - rewrite Hprops. vm_compute. reflexivity.
Defined.

(** * Further properties *)

(** ** Output normalization *)

Lemma spaces_add (a b : nat) : spaces (a + b) = spaces a +:+ spaces b.
Proof.
  induction a as [|a IH]; [reflexivity|].
  cbn [Nat.add spaces]. now rewrite append_cons, IH.
Qed.

Lemma CutPrefix_Some (s prefix rest : string) :
  CutPrefix s prefix = Some rest -> s = prefix +:+ rest.
Proof.
  revert s. induction prefix as [|p prefix IH]; intros s H.
  - cbn [CutPrefix] in H. now injection H as ->.
  - destruct s as [|c s]; cbn [CutPrefix] in H; [discriminate|].
    unfold byte_eqb in H. destruct (Ascii.eqb_spec c p) as [->|]; [|discriminate].
    rewrite append_cons. f_equal. now apply IH.
Qed.

(** [TrimPrefix] removes the prefix or nothing. *)
Lemma TrimPrefix_cases (s prefix : string) :
  s = prefix +:+ TrimPrefix s prefix \/ TrimPrefix s prefix = s.
Proof.
  unfold TrimPrefix. destruct (CutPrefix s prefix) as [rest|] eqn:E.
  - left. now apply CutPrefix_Some.
  - now right.
Qed.

Lemma TrimPrefix_indent4_iter_prefix (k : nat) (line : string) :
  exists j, (j <= k)%nat /\
    line = spaces (4 * j) +:+ Nat.iter k (fun line => TrimPrefix line indent4) line.
Proof.
  induction k as [|k (j & Hj & IH)].
  - exists 0%nat. split; [lia | reflexivity].
  - rewrite Nat.iter_succ.
    destruct (TrimPrefix_cases (Nat.iter k (fun line => TrimPrefix line indent4) line) indent4)
      as [H|H].
    + exists (S j). split; [lia|].
      replace (4 * S j)%nat with (4 * j + 4)%nat by lia.
      rewrite spaces_add, append_assoc. change (spaces 4) with indent4.
      now rewrite <- H.
    + exists j. split; [lia|]. now rewrite H.
Qed.

Lemma length_append (s t : string) :
  String.length (s +:+ t) = (String.length s + String.length t)%nat.
Proof.
  induction s as [|c s IH]; [reflexivity|].
  rewrite append_cons. cbn [String.length]. now rewrite IH.
Qed.

(** X1. [trimOutputPrefix] only removes a prefix, and that prefix is a
    number of groups of four spaces, at most [level + 1] of them, followed
    by at most one tab; whatever follows it in the line is returned as it
    is. *)
Theorem trimOutputPrefix_removes_prefix (line : string) (level : Z) :
  level < max_int64 ->
  exists (groups : nat) (t : string),
    (groups <= Z.to_nat (level + 1))%nat
    /\ (t = ""%string \/ t = tab)
    /\ line = spaces (4 * groups) +:+ t +:+ trimOutputPrefix line level.
Proof.
  intros _. unfold trimOutputPrefix.
  destruct (Z.rem (IndexFunc line not_space) 4 =? 0).
  - destruct (TrimPrefix_indent4_iter_prefix (Z.to_nat (level + 1)) line) as (j & Hj & Hline).
    set (stripped := Nat.iter (Z.to_nat (level + 1)) (fun l => TrimPrefix l indent4) line) in *.
    destruct (TrimPrefix_cases stripped tab) as [H|H].
    + exists j, tab. split; [exact Hj|]. split; [now right|]. now rewrite <- H.
    + exists j, ""%string. split; [exact Hj|]. split; [now left|].
      now rewrite H, append_nil_l.
  - destruct (TrimPrefix_cases line tab) as [H|H].
    + exists 0%nat, tab. split; [lia|]. split; [now right|]. exact H.
    + exists 0%nat, ""%string. split; [lia|]. split; [now left|]. now rewrite H.
Qed.

Lemma trimOutputPrefix_removes_prefix_witness :
  exists (groups : nat) (t : string),
    (groups <= 2)%nat
    /\ (t = ""%string \/ t = tab)
    /\ "            deep"%string =
       spaces (4 * groups) +:+ t +:+ trimOutputPrefix "            deep" 1.
Proof.
  apply (trimOutputPrefix_removes_prefix "            deep" 1).
  unfold max_int64. lia.
Defined.

Lemma trimOutputPrefix_length (line : string) (level : Z) :
  (String.length (trimOutputPrefix line level) <= String.length line)%nat.
Proof.
  destruct (Z.lt_ge_cases level max_int64) as [Hl|Hl].
  - destruct (trimOutputPrefix_removes_prefix line level Hl) as (j & t & _ & _ & H).
    apply (f_equal String.length) in H. rewrite !length_append in H. lia.
  - unfold trimOutputPrefix.
    destruct (TrimPrefix_indent4_iter_prefix (Z.to_nat (level + 1)) line) as (j & _ & Hline).
    set (stripped := Nat.iter (Z.to_nat (level + 1)) (fun l => TrimPrefix l indent4) line) in *.
    assert (Hs : (String.length stripped <= String.length line)%nat).
    { apply (f_equal String.length) in Hline. rewrite length_append in Hline. lia. }
    assert (Ht : forall s, (String.length (TrimPrefix s tab) <= String.length s)%nat).
    { intros s. destruct (TrimPrefix_cases s tab) as [H|H].
      - apply (f_equal String.length) in H. rewrite length_append in H. lia.
      - rewrite H. lia. }
    destruct (Z.rem (IndexFunc line not_space) 4 =? 0).
    + specialize (Ht stripped). lia.
    + apply Ht.
Qed.

Lemma Join_cons (e : string) (rest : list string) (sep : string) :
  rest <> [] -> Join (e :: rest) sep = e +:+ sep +:+ Join rest sep.
Proof. destruct rest; [congruence | reflexivity]. Qed.

Lemma Join_app (a b : list string) (sep : string) :
  a <> [] -> b <> [] -> Join (a ++ b) sep = Join a sep +:+ sep +:+ Join b sep.
Proof.
  intros Ha Hb. induction a as [|e a IH]; [congruence|].
  destruct a as [|e' a].
  - cbn [app]. now rewrite Join_cons.
  - change ((e :: e' :: a) ++ b) with (e :: (e' :: a) ++ b).
    rewrite Join_cons by discriminate. rewrite IH by discriminate.
    rewrite (Join_cons e (e' :: a)) by discriminate.
    now rewrite !append_assoc.
Qed.

(** X2. [formatOutput] joins the normalized lines with line breaks and
    nothing else: no output gives the empty string, and the output of two
    non-empty runs of lines is the output of the first, a line break, and
    the output of the second. *)
Theorem formatOutput_app (a b : list string) (level : Z) :
  a <> [] -> b <> [] ->
  formatOutput [] level = ""%string
  /\ formatOutput (a ++ b) level =
     formatOutput a level +:+ newline +:+ formatOutput b level.
Proof.
  intros Ha Hb. split; [reflexivity|]. unfold formatOutput.
  rewrite map_app. apply Join_app.
  - destruct a; [congruence | discriminate].
  - destruct b; [congruence | discriminate].
Qed.

Lemma formatOutput_app_witness :
  formatOutput [] 0 = ""%string
  /\ formatOutput (["    a"%string] ++ ["    b"%string; "c"%string]) 0 =
     formatOutput ["    a"%string] 0 +:+ newline
     +:+ formatOutput ["    b"%string; "c"%string] 0.
Proof.
  apply (formatOutput_app ["    a"%string] ["    b"%string; "c"%string] 0); discriminate.
Defined.

Lemma Join_length_le (xs ys : list string) (sep : string) :
  Forall2 (fun x y => (String.length x <= String.length y)%nat) xs ys ->
  (String.length (Join xs sep) <= String.length (Join ys sep))%nat.
Proof.
  induction 1 as [|x y xs ys Hxy Hrest IH]; [reflexivity|].
  inversion Hrest as [|x' y' xs' ys' Hxy' Hrest']; subst.
  - exact Hxy.
  - rewrite (Join_cons x), (Join_cons y) by discriminate.
    rewrite !length_append. lia.
Qed.

(** X3. Normalization never adds a character: the formatted output is at
    most as long as the lines joined as they are. *)
Theorem formatOutput_length (output : list string) (level : Z) :
  level < max_int64 ->
  (String.length (formatOutput output level)
   <= String.length (Join output newline))%nat.
Proof.
  intros _. unfold formatOutput. apply Join_length_le.
  induction output as [|line output IH]; constructor; [|exact IH].
  apply trimOutputPrefix_length.
Qed.

Lemma formatOutput_length_witness :
  (String.length (formatOutput ["        --- FAIL: TestB/sub"%string; "x"%string] 1)
   <= String.length (Join ["        --- FAIL: TestB/sub"%string; "x"%string] newline))%nat.
Proof.
  apply (formatOutput_length ["        --- FAIL: TestB/sub"%string; "x"%string] 1).
  unfold max_int64. lia.
Defined.

(** ** Benchmark aggregation *)

Lemma first_seen_length (names : list string) :
  (length (first_seen names) <= length names)%nat.
Proof.
  induction names as [|x names IH] using rev_ind; [reflexivity|].
  rewrite first_seen_snoc, length_app. cbn [length].
  case_bool_decide; [lia|]. rewrite length_app. cbn [length]. lia.
Qed.

Lemma first_seen_NoDup_id (names : list string) :
  NoDup names -> first_seen names = names.
Proof.
  induction names as [|x names IH] using rev_ind; intros Hnd; [reflexivity|].
  apply NoDup_app in Hnd as (Hnames & Hx & _).
  rewrite first_seen_snoc, (IH Hnames).
  case_bool_decide as Hin; [|reflexivity].
  exfalso. apply (Hx x Hin). now apply list_elem_of_singleton.
Qed.

(** X4. [mergeBenchmarks] returns at most as many records as it is given,
    and no record exactly when it is given none. *)
Theorem mergeBenchmarks_length (bs : list Benchmark) :
  (length (mergeBenchmarks bs) <= length bs)%nat
  /\ (mergeBenchmarks bs = [] <-> bs = []).
Proof.
  rewrite mergeBenchmarks_closed. split.
  - rewrite length_map. etransitivity; [apply first_seen_length|]. now rewrite length_map.
  - split.
    + intros H. destruct bs as [|b bs]; [reflexivity|]. exfalso.
      apply (f_equal (@length Benchmark)) in H. rewrite length_map in H.
      assert (Hin : Benchmark_Name b ∈ first_seen (map Benchmark_Name (b :: bs))).
      { apply first_seen_elem. cbn [map]. apply elem_of_cons. now left. }
      destruct (first_seen (map Benchmark_Name (b :: bs))); [|discriminate].
      now apply elem_of_nil in Hin.
    + intros ->. reflexivity.
Qed.

Lemma same_name_NoDup (bs : list Benchmark) (b : Benchmark) :
  NoDup (map Benchmark_Name bs) -> In b bs -> same_name (Benchmark_Name b) bs = [b].
Proof.
  induction bs as [|a bs IH]; intros Hnd Hin; [destruct Hin|].
  cbn [map] in Hnd. apply NoDup_cons in Hnd as [Ha Hnd].
  cbn [same_name List.filter]. fold (same_name (Benchmark_Name b) bs).
  destruct Hin as [->|Hin].
  - rewrite String.eqb_refl. f_equal. now apply same_name_absent.
  - destruct (String.eqb_spec (Benchmark_Name a) (Benchmark_Name b)) as [E|E].
    + exfalso. apply Ha. rewrite E. apply list_elem_of_In. now apply in_map.
    + now apply IH.
Qed.

(** X5. On benchmarks with pairwise distinct names, [mergeBenchmarks]
    keeps the records in their order with their names, and with their
    bytes/op and allocs/op when these are 64-bit values; ns/op and MB/s
    become [(0 + x) / 1]; the result, the output and the iteration count of
    every record are replaced by zero values. *)
Theorem mergeBenchmarks_distinct (bs : list Benchmark) :
  NoDup (map Benchmark_Name bs) ->
  Forall (fun b => in_int64 (Benchmark_BytesPerOp b) = true
                   /\ in_int64 (Benchmark_AllocsPerOp b) = true) bs ->
  mergeBenchmarks bs =
  map (fun b =>
         {| Benchmark_Name := Benchmark_Name b;
            Benchmark_Result := Unknown;
            Benchmark_Output := [];
            Benchmark_Iterations := 0;
            Benchmark_NsPerOp := ((0 + Benchmark_NsPerOp b) / 1)%float;
            Benchmark_MBPerSec := ((0 + Benchmark_MBPerSec b) / 1)%float;
            Benchmark_BytesPerOp := Benchmark_BytesPerOp b;
            Benchmark_AllocsPerOp := Benchmark_AllocsPerOp b |})
      bs.
Proof.
  intros Hnd Hrange. rewrite mergeBenchmarks_closed, (first_seen_NoDup_id _ Hnd).
  rewrite map_map. apply map_ext_in. intros b Hin.
  rewrite (same_name_NoDup bs b Hnd Hin).
  rewrite Forall_forall in Hrange. destruct (Hrange b) as [Hb Ha]; [now apply list_elem_of_In|].
  unfold aggregate, sum_float64, sum_int64. cbn [map fold_left length].
  unfold add64. cbn [Z.add]. rewrite !wrap64_in_range by assumption.
  change (Z.of_nat 1) with 1. rewrite !Z.quot_1_r. reflexivity.
Qed.

Lemma mergeBenchmarks_distinct_witness :
  mergeBenchmarks [int_Benchmark "BenchA" 16 2; int_Benchmark "BenchB" 0 0] =
  [ mkBenchmark "BenchA" Unknown [] 0 ((0 + 0) / 1)%float ((0 + 0) / 1)%float 16 2;
    mkBenchmark "BenchB" Unknown [] 0 ((0 + 0) / 1)%float ((0 + 0) / 1)%float 0 0 ].
Proof.
  apply (mergeBenchmarks_distinct [int_Benchmark "BenchA" 16 2; int_Benchmark "BenchB" 0 0]).
  - cbn [map int_Benchmark Benchmark_Name]. apply NoDup_cons. split.
    + intros H. apply list_elem_of_singleton in H. discriminate.
    + apply NoDup_singleton.
  - repeat constructor.
Defined.

Lemma quot_between (s n lo hi : Z) :
  0 < n -> lo * n <= s <= hi * n -> lo <= Z.quot s n <= hi.
Proof.
  intros Hn Hs. pose proof (Z.quot_rem' s n) as E.
  destruct (Z.le_gt_cases 0 s) as [H0|H0].
  - pose proof (Z.rem_bound_pos s n H0 Hn). nia.
  - pose proof (Z.rem_bound_pos_neg s n Hn ltac:(lia)). nia.
Qed.

Lemma Zsum_between (xs : list Z) (lo hi : Z) :
  Forall (fun x => lo <= x <= hi) xs ->
  lo * Z.of_nat (length xs) <= Zsum xs <= hi * Z.of_nat (length xs).
Proof.
  induction 1 as [|x xs Hx _ IH]; cbn [Zsum fold_right length].
  - lia.
  - fold (Zsum xs). lia.
Qed.

Lemma same_name_In (name : string) (bs : list Benchmark) (b : Benchmark) :
  In b (same_name name bs) <-> In b bs /\ Benchmark_Name b = name.
Proof.
  unfold same_name. rewrite filter_In.
  destruct (String.eqb_spec (Benchmark_Name b) name); intuition congruence.
Qed.

Lemma mergeBenchmarks_In (bs : list Benchmark) (r : Benchmark) :
  In r (mergeBenchmarks bs) <->
  Benchmark_Name r ∈ map Benchmark_Name bs
  /\ r = aggregate (Benchmark_Name r) (same_name (Benchmark_Name r) bs).
Proof.
  rewrite mergeBenchmarks_closed, in_map_iff. split.
  - intros (name & <- & Hin). apply list_elem_of_In in Hin.
    rewrite first_seen_elem in Hin. cbn [aggregate Benchmark_Name].
    split; [exact Hin | reflexivity].
  - intros [Hin Hr]. exists (Benchmark_Name r). split; [now rewrite <- Hr|].
    apply list_elem_of_In. rewrite first_seen_elem. exact Hin.
Qed.

(** The truncated mean of a group whose sum fits 64 bits lies between
    bounds of the group. *)
Lemma aggregate_between (f : Benchmark -> Z) (group : list Benchmark) (lo hi : Z) :
  group <> [] ->
  (forall b, In b group -> lo <= f b <= hi) ->
  in_int64 (Zsum (map f group)) = true ->
  lo <= Z.quot (sum_int64 (map f group)) (Z.of_nat (length group)) <= hi.
Proof.
  intros Hne Hb Hr. rewrite sum_int64_wrap, wrap64_in_range by exact Hr.
  apply quot_between.
  - destruct group; [congruence | cbn [length]; lia].
  - rewrite <- (length_map f group). apply Zsum_between.
    apply Forall_forall. intros x Hx. apply list_elem_of_In, in_map_iff in Hx.
    destruct Hx as (b & <- & Hin). now apply Hb.
Qed.

(** X6. When the bytes/op (the allocs/op) of the records of a name add up
    within 64 bits, the aggregated value lies between the least and the
    greatest of them: any bounds of the records are bounds of the
    aggregate. When the sum overflows this fails: two records of
    [2 ^ 62] bytes/op aggregate to [- 2 ^ 62]. *)
Theorem mergeBenchmarks_between (bs : list Benchmark) (r : Benchmark)
  (lo hi lo' hi' : Z) :
  In r (mergeBenchmarks bs) ->
  (forall b, In b bs -> Benchmark_Name b = Benchmark_Name r ->
             lo <= Benchmark_BytesPerOp b <= hi
             /\ lo' <= Benchmark_AllocsPerOp b <= hi') ->
  in_int64 (Zsum (map Benchmark_BytesPerOp (same_name (Benchmark_Name r) bs))) = true ->
  in_int64 (Zsum (map Benchmark_AllocsPerOp (same_name (Benchmark_Name r) bs))) = true ->
  (lo <= Benchmark_BytesPerOp r <= hi /\ lo' <= Benchmark_AllocsPerOp r <= hi')
  /\ map Benchmark_BytesPerOp
       (mergeBenchmarks [int_Benchmark "BenchX" (2 ^ 62) 0; int_Benchmark "BenchX" (2 ^ 62) 0])
     = [- 2 ^ 62].
Proof.
  intros Hin Hb Hbytes Hallocs. split; [|vm_compute; reflexivity].
  apply mergeBenchmarks_In in Hin as [Hname Hr].
  apply same_name_present in Hname.
  rewrite Hr. cbn [aggregate Benchmark_BytesPerOp Benchmark_AllocsPerOp]. split.
  - apply aggregate_between; [exact Hname | | exact Hbytes].
    intros b Hbin. apply same_name_In in Hbin as [Hbin Hn]. now apply Hb.
  - apply aggregate_between; [exact Hname | | exact Hallocs].
    intros b Hbin. apply same_name_In in Hbin as [Hbin Hn]. now apply Hb.
Qed.

Lemma mergeBenchmarks_between_witness :
  (16 <= 24 <= 32 /\ 1 <= 2 <= 4)
  /\ map Benchmark_BytesPerOp
       (mergeBenchmarks [int_Benchmark "BenchX" (2 ^ 62) 0; int_Benchmark "BenchX" (2 ^ 62) 0])
     = [- 2 ^ 62].
Proof.
  apply (mergeBenchmarks_between
           [int_Benchmark "BenchA" 16 1; int_Benchmark "BenchB" 7 7; int_Benchmark "BenchA" 32 4]
           (mkBenchmark "BenchA" Unknown [] 0 0 0 24 2) 16 32 1 4).
  - vm_compute. left. reflexivity.
  - intros b [<- | [<- | [<- | []]]]; cbn; intros H; try discriminate; lia.
  - reflexivity.
  - reflexivity.
Defined.

Lemma same_name_Permutation (name : string) (bs bs' : list Benchmark) :
  Permutation bs bs' -> Permutation (same_name name bs) (same_name name bs').
Proof.
  unfold same_name. induction 1 as [|b bs bs' _ IH|a b bs|bs1 bs2 bs3 _ IH1 _ IH2].
  - constructor.
  - cbn [List.filter]. destruct (String.eqb (Benchmark_Name b) name); [now constructor | exact IH].
  - cbn [List.filter].
    destruct (String.eqb (Benchmark_Name a) name), (String.eqb (Benchmark_Name b) name);
      try reflexivity. constructor.
  - etransitivity; eassumption.
Qed.

Lemma Zsum_Permutation (xs ys : list Z) : Permutation xs ys -> Zsum xs = Zsum ys.
Proof.
  unfold Zsum. induction 1; cbn [fold_right]; lia.
Qed.

(** X7. The integer figures of the aggregate of a name do not depend on
    the order of the records: if a list of benchmarks is rearranged, every
    aggregated record has a counterpart of the same name with the same
    bytes/op and allocs/op. *)
Theorem mergeBenchmarks_Permutation (bs bs' : list Benchmark) (r : Benchmark) :
  Permutation bs bs' ->
  In r (mergeBenchmarks bs) ->
  exists r',
    In r' (mergeBenchmarks bs')
    /\ Benchmark_Name r' = Benchmark_Name r
    /\ Benchmark_BytesPerOp r' = Benchmark_BytesPerOp r
    /\ Benchmark_AllocsPerOp r' = Benchmark_AllocsPerOp r.
Proof.
  intros Hperm Hin. apply mergeBenchmarks_In in Hin as [Hname Hr].
  pose proof (same_name_Permutation (Benchmark_Name r) bs bs' Hperm) as Hgroup.
  exists (aggregate (Benchmark_Name r) (same_name (Benchmark_Name r) bs')).
  split; [|split; [reflexivity|]].
  - apply mergeBenchmarks_In. cbn [aggregate Benchmark_Name]. split; [|reflexivity].
    rewrite <- (Permutation_map Benchmark_Name Hperm). exact Hname.
  - rewrite Hr. cbn [aggregate Benchmark_BytesPerOp Benchmark_AllocsPerOp].
    rewrite !sum_int64_wrap.
    rewrite (Zsum_Permutation _ _ (Permutation_map Benchmark_BytesPerOp Hgroup)).
    rewrite (Zsum_Permutation _ _ (Permutation_map Benchmark_AllocsPerOp Hgroup)).
    rewrite (Permutation_length Hgroup). split; reflexivity.
Qed.

Lemma mergeBenchmarks_Permutation_witness :
  exists r',
    In r' (mergeBenchmarks
             [int_Benchmark "BenchA" 32 4; int_Benchmark "BenchB" 7 7; int_Benchmark "BenchA" 16 1])
    /\ Benchmark_Name r' = "BenchA"%string
    /\ Benchmark_BytesPerOp r' = 24
    /\ Benchmark_AllocsPerOp r' = 2.
Proof.
  apply (mergeBenchmarks_Permutation
           [int_Benchmark "BenchA" 16 1; int_Benchmark "BenchB" 7 7; int_Benchmark "BenchA" 32 4]
           [int_Benchmark "BenchA" 32 4; int_Benchmark "BenchB" 7 7; int_Benchmark "BenchA" 16 1]
           (mkBenchmark "BenchA" Unknown [] 0 0 0 24 2)).
  - apply (Permutation_trans (l' := [int_Benchmark "BenchB" 7 7; int_Benchmark "BenchA" 16 1;
                                     int_Benchmark "BenchA" 32 4])).
    + apply perm_swap.
    + apply (Permutation_trans (l' := [int_Benchmark "BenchB" 7 7; int_Benchmark "BenchA" 32 4;
                                       int_Benchmark "BenchA" 16 1])).
      * apply perm_skip, perm_swap.
      * apply perm_swap.
  - vm_compute. left. reflexivity.
Defined.

(** ** Report.IsSuccessful *)

(** X8. A report made of the packages of two reports is successful exactly
    when both are. *)
Theorem IsSuccessful_app (pkgs pkgs' : list Package) :
  IsSuccessful (mkReport (pkgs ++ pkgs')) =
  IsSuccessful (mkReport pkgs) && IsSuccessful (mkReport pkgs').
Proof.
  unfold IsSuccessful. cbn [Report_Packages].
  induction pkgs as [|pkg pkgs IH]; [reflexivity|].
  cbn [app IsSuccessful_packages]. rewrite IH.
  destruct (nonempty (Error_Name (Package_BuildError pkg))
            || nonempty (Error_Name (Package_RunError pkg))); [reflexivity|].
  now destruct (IsSuccessful_tests (Package_Tests pkg)).
Qed.

Lemma IsSuccessful_tests_results (tests : list Test) :
  IsSuccessful_tests (map (fun t => mkTest "" 0 (Test_Result t) 0 []) tests) =
  IsSuccessful_tests tests.
Proof.
  induction tests as [|t tests IH]; [reflexivity|].
  cbn [map IsSuccessful_tests Test_Result]. now rewrite IH.
Qed.

(** X9. [IsSuccessful] looks at nothing but the names of the build and run
    errors and the results of the tests: blanking every other field of
    every package (names, durations, coverage, output, levels, benchmarks,
    causes) leaves its value unchanged. In particular no benchmark, whatever
    its result, makes a report unsuccessful. *)
Theorem IsSuccessful_outcome (r : Report) :
  IsSuccessful (mkReport (map outcome_of (Report_Packages r))) = IsSuccessful r.
Proof.
  unfold IsSuccessful. cbn [Report_Packages].
  induction (Report_Packages r) as [|pkg pkgs IH]; [reflexivity|].
  cbn [map IsSuccessful_packages outcome_of Package_BuildError Package_RunError
       Package_Tests Error_Name].
  now rewrite IsSuccessful_tests_results, IH.
Qed.

(** ** The renderer *)

Section RendererFurther.

Variable FormatDuration : Z -> string.
Variable FormatBenchmarkTime : Z -> string.
Variable Sprintf_2f : float -> string.
Variable time_Time : Type.
Variable Format_RFC3339 : time_Time -> string.
Variable float64_unrepresentable : float -> Z.

Local Abbreviation render :=
  (JUnit_package FormatDuration FormatBenchmarkTime Sprintf_2f float64_unrepresentable).
Local Abbreviation render_report :=
  (JUnit FormatDuration FormatBenchmarkTime Sprintf_2f time_Time Format_RFC3339
         float64_unrepresentable).
Local Abbreviation render_test := (JUnit_test FormatDuration).
Local Abbreviation render_benchmark :=
  (JUnit_benchmark FormatBenchmarkTime float64_unrepresentable).

Lemma clean_case_test (pkg : Package) (tests : list Test) :
  forallb clean_case (map (render_test pkg) tests) = IsSuccessful_tests tests.
Proof.
  induction tests as [|t tests IH]; [reflexivity|].
  cbn [map forallb IsSuccessful_tests]. rewrite IH.
  unfold JUnit_test. now destruct (Test_Result t).
Qed.

Lemma clean_case_benchmark (pkg : Package) (bms : list Benchmark) :
  forallb clean_case (map (render_benchmark pkg) (mergeBenchmarks bms)) = true.
Proof.
  apply forallb_forall. intros tc Hin. apply in_map_iff in Hin as (bm & <- & Hbm).
  pose proof (mergeBenchmarks_Result bms) as HR. rewrite Forall_forall in HR.
  apply list_elem_of_In, HR in Hbm.
  unfold clean_case, JUnit_benchmark. cbn. now rewrite Hbm.
Qed.

Lemma clean_case_package (hostname timestamp : string) (pkg : Package) :
  forallb clean_case (junit.Testsuite_Testcases (render hostname timestamp pkg)) =
  negb (nonempty (Error_Name (Package_BuildError pkg))
        || nonempty (Error_Name (Package_RunError pkg)))
  && IsSuccessful_tests (Package_Tests pkg).
Proof.
  rewrite JUnit_package_fields. cbn [junit.Testsuite_Testcases].
  rewrite !forallb_app, clean_case_test, clean_case_benchmark.
  destruct (nonempty (Error_Name (Package_BuildError pkg)));
    destruct (nonempty (Error_Name (Package_RunError pkg)));
    destruct (IsSuccessful_tests (Package_Tests pkg)); reflexivity.
Qed.

(** X10. A report is successful exactly when the document rendered from it
    has no test-case with a failure record or an error record (results
    being Pass, Fail, Skip or Unknown). *)
Theorem IsSuccessful_JUnit (report : Report) (hostname : string) (now : time_Time) :
  IsSuccessful report =
  forallb (fun suite => forallb clean_case (junit.Testsuite_Testcases suite))
    (render_report report hostname now).
Proof.
  rewrite JUnit_suites. unfold IsSuccessful.
  induction (Report_Packages report) as [|pkg pkgs IH]; [reflexivity|].
  cbn [map forallb IsSuccessful_packages]. rewrite clean_case_package, <- IH.
  destruct (nonempty (Error_Name (Package_BuildError pkg))
            || nonempty (Error_Name (Package_RunError pkg))); [reflexivity|].
  now destruct (IsSuccessful_tests (Package_Tests pkg)).
Qed.

(** X11. [JUnit] renders one suite per package, in the order of the
    packages: the names of the suites are the names of the packages, and
    every suite carries the host name and the formatted instant that the
    caller gave. *)
Theorem JUnit_suite_headers (report : Report) (hostname : string) (now : time_Time) :
  map junit.Testsuite_Name (render_report report hostname now) =
    map Package_Name (Report_Packages report)
  /\ Forall (fun suite => junit.Testsuite_Hostname suite = hostname
                          /\ junit.Testsuite_Timestamp suite = Format_RFC3339 now)
       (render_report report hostname now).
Proof.
  rewrite JUnit_suites. split.
  - rewrite map_map. apply map_ext. intros pkg. now rewrite JUnit_package_fields.
  - apply Forall_forall. intros suite Hin.
    apply list_elem_of_In, in_map_iff in Hin. destruct Hin as (pkg & <- & _).
    now rewrite JUnit_package_fields.
Qed.

(** X12. The suite of a package does not depend on the other packages of
    the report: the document of the packages of two reports is the document
    of the first followed by the document of the second. *)
Theorem JUnit_app (pkgs pkgs' : list Package) (hostname : string) (now : time_Time) :
  render_report (mkReport (pkgs ++ pkgs')) hostname now =
  render_report (mkReport pkgs) hostname now ++ render_report (mkReport pkgs') hostname now.
Proof. rewrite !JUnit_suites. cbn [Report_Packages]. apply map_app. Qed.

(** X13. The number of test-cases of a suite is the number of tests of the
    package, plus the number of distinct benchmark names, plus one for a
    build error and one for a run error. *)
Theorem JUnit_Testcases_length (hostname timestamp : string) (pkg : Package) :
  length (junit.Testsuite_Testcases (render hostname timestamp pkg)) =
  (length (Package_Tests pkg)
   + length (first_seen (map Benchmark_Name (Package_Benchmarks pkg)))
   + (if nonempty (Error_Name (Package_BuildError pkg)) then 1 else 0)
   + (if nonempty (Error_Name (Package_RunError pkg)) then 1 else 0))%nat.
Proof.
  rewrite JUnit_package_fields. cbn [junit.Testsuite_Testcases].
  rewrite !length_app, !length_map, mergeBenchmarks_closed, length_map.
  destruct (nonempty (Error_Name (Package_BuildError pkg)));
    destruct (nonempty (Error_Name (Package_RunError pkg))); cbn [length]; lia.
Qed.

Lemma no_separator_app (s t : string) :
  no_separator (s +:+ t) = no_separator s && no_separator t.
Proof.
  induction s as [|c s IH]; [reflexivity|].
  rewrite append_cons. cbn [no_separator]. now rewrite IH, andb_assoc.
Qed.

Lemma FieldsFunc_from_tokens (field s : string) :
  no_separator field = true ->
  Forall token (FieldsFunc_from field s propFieldsFunc).
Proof.
  revert field. induction s as [|c s IH]; intros field Hf; cbn [FieldsFunc_from].
  - destruct (String.eqb_spec field ""); constructor; [|constructor]. now split.
  - destruct (propFieldsFunc c) eqn:Hc.
    + destruct (String.eqb_spec field ""); [now apply IH|].
      constructor; [now split | now apply IH].
    + apply IH. rewrite no_separator_app, Hf. cbn [no_separator]. now rewrite Hc.
Qed.

(** The fields that [FieldsFunc] returns are not empty and hold neither
    colon nor space. *)
Lemma FieldsFunc_tokens (s : string) : Forall token (FieldsFunc s propFieldsFunc).
Proof. now apply FieldsFunc_from_tokens. Qed.

Lemma line_property_fields (line : string) (p : junit.Property) :
  line_property line = Some p ->
  FieldsFunc line propFieldsFunc = [junit.Property_Name p; junit.Property_Value p].
Proof.
  unfold line_property.
  destruct (FieldsFunc line propFieldsFunc) as [|key [|value [|? ?]]]; try discriminate.
  destruct (propPrefixes_get key); [|discriminate]. now intros [= <-].
Qed.

(** X14. Every property of a suite is named "coverage.statements.pct",
    "goos", "goarch" or "pkg", and the value of a property taken from an
    output line is not empty and holds neither colon nor space; a suite
    has at most one property more than the package has output lines. *)
Theorem JUnit_Properties_shape (hostname timestamp : string) (pkg : Package) :
  Forall (fun p =>
            junit.Property_Name p = "coverage.statements.pct"%string
            \/ ((junit.Property_Name p = "goos"%string
                 \/ junit.Property_Name p = "goarch"%string
                 \/ junit.Property_Name p = "pkg"%string)
                /\ token (junit.Property_Value p)))
    (junit.Testsuite_Properties (render hostname timestamp pkg))
  /\ (length (junit.Testsuite_Properties (render hostname timestamp pkg))
      <= S (length (Package_Output pkg)))%nat.
Proof.
  rewrite JUnit_package_fields. cbn [junit.Testsuite_Properties]. split.
  - apply Forall_app. split.
    + destruct (0 <? Package_Coverage pkg)%float; repeat constructor.
    + apply Forall_forall. intros p Hin. apply list_elem_of_omap in Hin.
      destruct Hin as (line & _ & Hline). right. split.
      * now apply propPrefixes_get_true, (line_property_key line).
      * pose proof (FieldsFunc_tokens line) as Ht.
        rewrite (line_property_fields line p Hline) in Ht.
        apply Forall_cons in Ht as [_ Ht]. now apply Forall_cons in Ht as [Ht _].
  - rewrite length_app.
    assert (Hle : (length (omap line_property (Package_Output pkg))
                   <= length (Package_Output pkg))%nat).
    { induction (Package_Output pkg) as [|line lines IH]; [reflexivity|].
      cbn [omap list_omap length]. fold (omap line_property lines).
      destruct (line_property line); cbn [length]; lia. }
    destruct (0 <? Package_Coverage pkg)%float; cbn [length]; lia.
Qed.

End RendererFurther.

(** ** Splitting lines into fields *)

Lemma FieldsFunc_from_separators (sep rest : string) :
  all_separator sep = true ->
  FieldsFunc_from "" (sep +:+ rest) propFieldsFunc = FieldsFunc_from "" rest propFieldsFunc.
Proof.
  induction sep as [|c sep IH]; intros H; [reflexivity|].
  cbn [all_separator] in H. apply andb_true_iff in H as [Hc H].
  rewrite append_cons. cbn [FieldsFunc_from]. rewrite Hc.
  change (String.eqb "" "") with true. cbv iota. now apply IH.
Qed.

Lemma FieldsFunc_from_field_end (field sep rest : string) :
  field <> ""%string -> sep <> ""%string -> all_separator sep = true ->
  FieldsFunc_from field (sep +:+ rest) propFieldsFunc =
  field :: FieldsFunc_from "" rest propFieldsFunc.
Proof.
  intros Hf Hs H. destruct sep as [|c sep]; [congruence|].
  cbn [all_separator] in H. apply andb_true_iff in H as [Hc H].
  rewrite append_cons. cbn [FieldsFunc_from]. rewrite Hc.
  destruct (String.eqb_spec field ""); [contradiction|].
  f_equal. now apply FieldsFunc_from_separators.
Qed.

Lemma FieldsFunc_Join (tokens : list string) (sep : string) :
  Forall token tokens -> sep <> ""%string -> all_separator sep = true ->
  FieldsFunc (Join tokens sep) propFieldsFunc = tokens.
Proof.
  intros Ht Hs Hsep. unfold FieldsFunc.
  induction Ht as [|t tokens [Hne Htok] Hrest IH]; [reflexivity|].
  destruct tokens as [|t' tokens].
  - cbn [Join]. rewrite <- (append_nil_r t) at 1.
    rewrite FieldsFunc_from_token by exact Htok. rewrite append_nil_l.
    cbn [FieldsFunc_from]. destruct (String.eqb_spec t ""); [contradiction | reflexivity].
  - rewrite Join_cons by discriminate.
    rewrite FieldsFunc_from_token by exact Htok. rewrite append_nil_l.
    rewrite FieldsFunc_from_field_end by assumption. now rewrite IH.
Qed.

(** X15. A line of tokens (non-empty strings without colon and space)
    separated by a non-empty run of colons and spaces splits back into
    those tokens, so that it yields a property exactly when it has two
    tokens of which the first is goos, goarch or pkg: the colon of
    [key: value] is not needed, and a value of two words yields nothing. *)
Theorem line_property_Join (tokens : list string) (sep : string) :
  Forall token tokens -> sep <> ""%string -> all_separator sep = true ->
  FieldsFunc (Join tokens sep) propFieldsFunc = tokens
  /\ line_property (Join tokens sep) =
     match tokens with
     | [key; value] =>
         if bool_decide (key = "goos"%string \/ key = "goarch"%string \/ key = "pkg"%string)
         then Some {| junit.Property_Name := key; junit.Property_Value := value |}
         else None
     | _ => None
     end.
Proof.
  intros Ht Hs Hsep. pose proof (FieldsFunc_Join tokens sep Ht Hs Hsep) as HF.
  split; [exact HF|]. unfold line_property. rewrite HF.
  destruct tokens as [|key [|value [|? ?]]]; try reflexivity.
  case_bool_decide as Hkey.
  - apply propPrefixes_get_true in Hkey. now rewrite Hkey.
  - destruct (propPrefixes_get key) eqn:E; [|reflexivity].
    apply propPrefixes_get_true in E. contradiction.
Qed.

Lemma line_property_Join_witness :
  (FieldsFunc "goos linux" propFieldsFunc = ["goos"%string; "linux"%string]
   /\ line_property "goos linux" =
      Some {| junit.Property_Name := "goos"; junit.Property_Value := "linux" |})
  /\ (FieldsFunc "pkg: my: pkg" propFieldsFunc = ["pkg"%string; "my"%string; "pkg"%string]
      /\ line_property "pkg: my: pkg" = None).
Proof.
  split.
  - apply (line_property_Join ["goos"%string; "linux"%string] " ");
      [repeat constructor; discriminate | discriminate | reflexivity].
  - apply (line_property_Join ["pkg"%string; "my"%string; "pkg"%string] ": ");
      [repeat constructor; discriminate | discriminate | reflexivity].
Defined.

(** ** FromEvents *)

Section EventsProperties.

Variable EventResult : Type.
Variable ReportBuilder : Type.
Variable NewReportBuilder : string -> ReportBuilder.
Variable CreateTest : ReportBuilder -> string -> ReportBuilder.
Variable PauseTest : ReportBuilder -> string -> ReportBuilder.
Variable ContinueTest : ReportBuilder -> string -> ReportBuilder.
Variable EndTest : ReportBuilder -> string -> EventResult -> Z -> Z -> ReportBuilder.
Variable AddBenchmark :
  ReportBuilder -> string -> Z -> float -> float -> Z -> Z -> ReportBuilder.
Variable End_ : ReportBuilder -> ReportBuilder.
Variable CreatePackage :
  ReportBuilder -> string -> EventResult -> Z -> string -> ReportBuilder.
Variable Coverage : ReportBuilder -> float -> list string -> ReportBuilder.
Variable CreateBuildError : ReportBuilder -> string -> ReportBuilder.
Variable AppendOutput : ReportBuilder -> string -> ReportBuilder.
Variable Build : ReportBuilder -> Report.

Local Abbreviation step :=
  (FromEvents_event EventResult ReportBuilder CreateTest PauseTest ContinueTest EndTest
     AddBenchmark End_ CreatePackage Coverage CreateBuildError AppendOutput).
Local Abbreviation from_events :=
  (FromEvents EventResult ReportBuilder NewReportBuilder CreateTest PauseTest ContinueTest
     EndTest AddBenchmark End_ CreatePackage Coverage CreateBuildError AppendOutput Build).
Local Abbreviation is_handled := (handled EventResult).
Local Abbreviation message := (unhandled_message EventResult).

Ltac not_handled H :=
  apply bool_decide_eq_true in H;
  repeat (apply elem_of_cons in H as [H|H]; [congruence|]);
  now apply elem_of_nil in H.

(** An event with a case in the [switch] changes the builder only, and in
    a way that does not depend on what was printed. *)
Lemma FromEvents_event_handled (ev : Event EventResult) (report : ReportBuilder)
  (stdout : list string) :
  is_handled ev = true ->
  step (report, stdout) ev = (fst (step (report, []) ev), stdout).
Proof.
  intros H. unfold FromEvents_event.
  repeat (match goal with
          | |- context [String.eqb ?a ?b] => destruct (String.eqb_spec a b); [reflexivity|]
          end).
  exfalso. unfold handled in H. not_handled H.
Qed.

(** An event without a case leaves the builder alone and prints a line. *)
Lemma FromEvents_event_unhandled (ev : Event EventResult) (report : ReportBuilder)
  (stdout : list string) :
  is_handled ev = false ->
  step (report, stdout) ev = (report, stdout ++ [message ev]).
Proof.
  intros H. unfold FromEvents_event.
  repeat (match goal with
          | |- context [String.eqb ?a ?b] =>
              destruct (String.eqb_spec a b);
              [exfalso; unfold handled in H;
               match goal with E : a = b |- _ => rewrite E in H end;
               vm_compute in H; discriminate|]
          end).
  reflexivity.
Qed.

Lemma FromEvents_fold (events : list (Event EventResult)) (report : ReportBuilder)
  (stdout : list string) :
  fold_left step events (report, stdout) =
  (fst (fold_left step (List.filter is_handled events) (report, [])),
   stdout ++ map message (List.filter (fun ev => negb (is_handled ev)) events)).
Proof.
  revert report stdout. induction events as [|ev events IH]; intros report stdout.
  - cbn [fold_left List.filter map fst]. now rewrite app_nil_r.
  - cbn [fold_left List.filter]. destruct (is_handled ev) eqn:H; cbn [negb].
    + rewrite (FromEvents_event_handled ev report stdout H), IH.
      cbn [fold_left]. now rewrite (FromEvents_event_handled ev report [] H).
    + rewrite (FromEvents_event_unhandled ev report stdout H), IH.
      cbn [map]. now rewrite <- app_assoc.
Qed.

(** X16. [FromEvents] ignores the events whose kind it does not know: the
    report is the one it builds from the stream without them, and it prints
    one line "unhandled event type: ..." for each of them, in their
    order, and nothing for the events it knows. *)
Theorem FromEvents_unhandled (events : list (Event EventResult)) (packageName : string) :
  fst (from_events events packageName) =
    fst (from_events (List.filter is_handled events) packageName)
  /\ snd (from_events events packageName) =
     map message (List.filter (fun ev => negb (is_handled ev)) events).
Proof.
  assert (Hf : List.filter is_handled (List.filter is_handled events)
               = List.filter is_handled events).
  { induction events as [|ev events IH]; [reflexivity|].
    cbn [List.filter]. destruct (is_handled ev) eqn:H; [|exact IH].
    cbn [List.filter]. now rewrite H, IH. }
  unfold FromEvents.
  rewrite (FromEvents_fold events), (FromEvents_fold (List.filter is_handled events)).
  rewrite Hf. cbn [fst snd app]. split; reflexivity.
Qed.

End EventsProperties.

(** ** The test-cases of benchmarks *)

Section BenchmarkCases.

Variable FormatDuration : Z -> string.
Variable FormatBenchmarkTime : Z -> string.
Variable Sprintf_2f : float -> string.
Variable float64_unrepresentable : float -> Z.

Local Abbreviation render :=
  (JUnit_package FormatDuration FormatBenchmarkTime Sprintf_2f float64_unrepresentable).


End BenchmarkCases.


(** ** The loop of trimOutputPrefix *)

(** X18. The loop [for i := 0; i <= level; i++] of [trimOutputPrefix], with
    the wrap-around of its counter, ends for every level below the
    greatest 64-bit integer, after [level + 1] iterations (none for a
    negative level); at that greatest level it never ends, whatever the
    line. *)
Theorem trim_loop_termination (level : Z) (line : string) :
  (level < max_int64 ->
   exists fuel,
     trim_loop fuel level 0 line =
     Some (Nat.iter (Z.to_nat (level + 1)) (fun line => TrimPrefix line indent4) line))
  /\ (forall fuel, trim_loop fuel max_int64 0 line = None).
Proof.
  split.
  - intros Hl. exists (S (Z.to_nat (level + 1))). now apply trim_loop_returns.
  - intros fuel. apply trim_loop_max_int64. unfold max_int64. lia.
Qed.

Lemma trim_loop_termination_witness :
  (exists fuel, trim_loop fuel 1 0 "        x" = Some "x"%string)
  /\ (forall fuel, trim_loop fuel max_int64 0 "        x" = None).
Proof.
  destruct (trim_loop_termination 1 "        x") as [H1 H2].
  split; [|exact H2]. apply H1. unfold max_int64. lia.
Defined.
